(** * MED-SAFE: the drug interaction checker

    A shallow embedding of [DrugInteractionChecker.py] and the properties of
    its lookup core: column detection, name normalisation, input validation,
    the pairwise check and the single-drug listing.

    Conventions of the embedding.
    - A Python [str] is a [string]; a character is a code point below 256
      (the Latin-1 range), on which [str.lower], [str.strip], [str.isspace]
      and the regular expression classes [\d] and [\s] are modelled.
    - A [DataFrame] is its header list, its rows and the headers of the
      columns that are not of object dtype; a row is a finite map from
      header to cell, a missing key standing for a missing cell (NaN). A
      cell of an object column is a string; a cell of another column (a
      number, a boolean) is held in its printed form.
    - A method of the class is a computation in a state and exception monad
      over the fields of the instance. *)

From Stdlib Require Import Ascii String NArith Bool.
From stdpp Require Import base gmap strings list fin_maps pretty.

Local Open Scope N_scope.

(** ** Characters *)

Module Char.

Definition code (c : ascii) : N := N_of_ascii c.

Definition between (lo hi : N) (c : ascii) : bool :=
  (lo <=? code c) && (code c <=? hi).

(** [str.isspace] on one character: TAB..CR, FS..US, space, NEL, NBSP. *)
Definition isspace (c : ascii) : bool :=
  between 9 13 c || between 28 32 c || (code c =? 133) || (code c =? 160).

(** Decimal digits (category Nd), the class [\d]. *)
Definition isdecimal (c : ascii) : bool := between 48 57 c.

(** Characters that [str.lower] changes: A..Z and the accented capitals
    of Latin-1, the multiplication sign (215) excepted. *)
Definition isupper (c : ascii) : bool :=
  between 65 90 c || (between 192 222 c && negb (code c =? 215)).

Definition lower (c : ascii) : ascii :=
  if isupper c then ascii_of_N (code c + 32) else c.

End Char.

(** ** Strings: the [str] methods the checker calls *)

Fixpoint str_all (p : ascii → bool) (s : string) : bool :=
  match s with
  | EmptyString => true
  | String c s' => p c && str_all p s'
  end.

(** [s.lower()] *)
Fixpoint lower (s : string) : string :=
  match s with
  | EmptyString => EmptyString
  | String c s' => String (Char.lower c) (lower s')
  end.

Fixpoint lstrip (s : string) : string :=
  match s with
  | EmptyString => EmptyString
  | String c s' => if Char.isspace c then lstrip s' else s
  end.

Fixpoint rstrip (s : string) : string :=
  match s with
  | EmptyString => EmptyString
  | String c s' =>
      match rstrip s' with
      | EmptyString => if Char.isspace c then EmptyString else String c EmptyString
      | r => String c r
      end
  end.

(** [s.strip()] *)
Definition strip (s : string) : string := rstrip (lstrip s).

(** [sub in s] *)
Fixpoint str_in (sub s : string) : bool :=
  String.prefix sub s ||
  match s with
  | EmptyString => false
  | String _ s' => str_in sub s'
  end.

(** The normalisation of a drug name, [name.lower().strip()]. *)
Definition normalize (s : string) : string := strip (lower s).

(** What a normalised name looks like: no capital, no blank at either end. *)
Definition is_lowercase (s : string) : bool :=
  str_all (λ c, negb (Char.isupper c)) s.

Definition starts_blank (s : string) : bool :=
  match s with
  | EmptyString => false
  | String c _ => Char.isspace c
  end.

Fixpoint ends_blank (s : string) : bool :=
  match s with
  | EmptyString => false
  | String c EmptyString => Char.isspace c
  | String _ s' => ends_blank s'
  end.

Definition is_trimmed (s : string) : bool :=
  negb (starts_blank s) && negb (ends_blank s).

(** ** The regular expression [^[\d.,\s]+$] *)

Module Re.

(** The character class [[\d.,\s]]. *)
Definition numeric_class (c : ascii) : bool :=
  Char.isdecimal c || (Char.code c =? 46) || (Char.code c =? 44)
  || Char.isspace c.

(** [$] holds at the end of the subject and before a final line feed. *)
Definition at_end (s : string) : bool :=
  match s with
  | EmptyString => true
  | String c EmptyString => Char.code c =? 10
  | _ => false
  end.

(** The rest of [[\d.,\s]+$] once one character of the class is taken:
    stop here if [$] holds, or take one more. *)
Fixpoint more_then_end (s : string) : bool :=
  at_end s ||
  match s with
  | EmptyString => false
  | String c s' => numeric_class c && more_then_end s'
  end.

(** [re.match(r'^[\d.,\s]+$', s)] as a truth value. *)
Definition match_numeric (s : string) : bool :=
  match s with
  | EmptyString => false
  | String c s' => numeric_class c && more_then_end s'
  end.

End Re.

(** ** Input validation *)

(** An argument of a query: a [str], or [None]. *)
Definition py_arg : Type := option string.

Definition msg_empty : string := "Drug name cannot be empty".
Definition msg_numeric : string :=
  "Invalid input: Drug name cannot be purely numeric".

(** Truthiness of a [str] or [None]. *)
Definition truthy (a : py_arg) : bool :=
  match a with
  | None | Some EmptyString => false
  | Some _ => true
  end.

(** [DrugInteractionChecker._validate_drug_input] *)
Definition _validate_drug_input (drug_name : py_arg) : bool * option string :=
  match drug_name with
  | None => (false, Some msg_empty)
  | Some name =>
      if negb (truthy drug_name) || negb (truthy (Some (strip name)))
      then (false, Some msg_empty)
      else if Re.match_numeric (strip name)
      then (false, Some msg_numeric)
      else (true, None)
  end.

(** ** Exceptions *)

Inductive exn : Type :=
| FileNotFoundError (msg : string)
| IndexError (msg : string)
| KeyError (key : string)
| TypeError (msg : string)
| AttributeError (msg : string)
| Exception (msg : string).

(** [str(e)]; a [KeyError] prints the [repr] of its key. *)
Definition str_exn (e : exn) : string :=
  match e with
  | KeyError key => "'" +:+ key +:+ "'"
  | FileNotFoundError msg | IndexError msg | TypeError msg
  | AttributeError msg | Exception msg => msg
  end.

(** ** The part of pandas the checker uses *)

Record DataFrame : Type := mkDataFrame {
  columns : list string;
  rows : list (gmap string string);
  (** [df.dtypes]: the headers whose column is of another dtype than
      [object] (int64, float64, bool). *)
  non_object : list string
}.

(** A column taken out of a frame; [None] is a missing cell. *)
Abbreviation Series := (list (option string)).

(** [df.columns[i]] *)
Definition columns_at (d : DataFrame) (i : nat) : exn + string :=
  match columns d !! i with
  | Some c => inr c
  | None =>
      inl (IndexError ("index " +:+ pretty i
                       +:+ " is out of bounds for axis 0 with size "
                       +:+ pretty (length (columns d))))
  end.

(** [df[col]] *)
Definition df_getitem (d : DataFrame) (col : string) : exn + Series :=
  if bool_decide (col ∈ columns d)
  then inr ((λ row : gmap string string, row !! col) <$> rows d)
  else inl (KeyError col).

(** [df[col].dtype == object]. What [read_csv] types as [object] is a
    column that holds a string, or a column of a frame without rows: a
    column of numbers or of booleans, and a column of missing cells only,
    get another dtype. *)
Definition is_object_dtype (d : DataFrame) (col : string) : bool :=
  negb (bool_decide (col ∈ non_object d))
  && (bool_decide (rows d = [])
      || existsb (λ row : gmap string string, bool_decide (is_Some (row !! col)))
                 (rows d)).

(** [df[col] = ser], for a series of strings on the frame's own index: the
    column is of object dtype from then on. *)
Definition df_setitem (d : DataFrame) (col : string) (ser : Series) : DataFrame :=
  {| columns := if bool_decide (col ∈ columns d) then columns d
                else columns d ++ [col];
     rows := zip_with (λ (row : gmap string string) v,
                         partial_alter (λ _, v) col row) (rows d) ser;
     non_object := List.filter (λ c, negb (bool_decide (c = col)))
                               (non_object d) |}.

Definition str_accessor_error : exn :=
  AttributeError "Can only use .str accessor with string values!".

(** [ser.str.lower()] and [ser.str.strip()], for a Series of object dtype
    or not: the accessor [.str] raises on a Series that is not of object
    dtype; on one that is, a missing cell stays missing and the result is
    of object dtype again. *)
Definition str_lower (object_dtype : bool) (ser : Series) : exn + Series :=
  if object_dtype then inr (fmap (M:=option) lower <$> ser)
  else inl str_accessor_error.
Definition str_strip (object_dtype : bool) (ser : Series) : exn + Series :=
  if object_dtype then inr (fmap (M:=option) strip <$> ser)
  else inl str_accessor_error.

(** [ser == value], a missing cell comparing unequal to everything. *)
Definition series_eq (ser : Series) (value : string) : list bool :=
  (λ cell : option string, bool_decide (cell = Some value)) <$> ser.

(** [m1 & m2] and [m1 | m2] on boolean masks. *)
Definition mask_and (m1 m2 : list bool) : list bool := zip_with andb m1 m2.
Definition mask_or (m1 m2 : list bool) : list bool := zip_with orb m1 m2.

Fixpoint select_mask {A : Type} (l : list A) (mask : list bool) : list A :=
  match l, mask with
  | x :: l', b :: mask' =>
      if b then x :: select_mask l' mask' else select_mask l' mask'
  | _, _ => []
  end.

(** [df[mask]]: the rows where the mask holds, in the order of the frame. *)
Definition df_where (d : DataFrame) (mask : list bool) : DataFrame :=
  {| columns := columns d; rows := select_mask (rows d) mask;
     non_object := non_object d |}.

(** [df.empty] *)
Definition df_empty (d : DataFrame) : bool :=
  bool_decide (rows d = []) || bool_decide (columns d = []).

(** A row cut down to the keys listed. *)
Definition restrict (cols : list string) (row : gmap string string)
  : gmap string string :=
  filter (λ kv : string * string, kv.1 ∈ cols) row.

(** [df[[c1, c2, c3]]] *)
Definition df_select (d : DataFrame) (cols : list string) : exn + DataFrame :=
  match List.find (λ c, negb (bool_decide (c ∈ columns d))) cols with
  | Some c => inl (KeyError c)
  | None =>
      inr {| columns := cols; rows := restrict cols <$> rows d;
             non_object := List.filter (λ c, bool_decide (c ∈ cols))
                                       (non_object d) |}
  end.

(** [df.to_dict('records')]: one dict per row. *)
Definition to_dict_records (d : DataFrame) : list (gmap string string) :=
  rows d.

(** ** The instance and its methods *)

Record DrugInteractionChecker : Type := mkChecker {
  df : option DataFrame;
  filepath : string;
  drug1_col : option string;
  drug2_col : option string;
  level_col : option string
}.

(** The dict every query returns. *)
Record result : Type := mkResult {
  status : string;
  message : string;
  data : option (list (gmap string string))
}.

(** A method body: it reads and writes the instance and may raise. *)
Definition M (A : Type) : Type :=
  DrugInteractionChecker → (exn + A) * DrugInteractionChecker.

Definition ret {A} (x : A) : M A := λ self, (inr x, self).

Definition bind {A B} (m : M A) (k : A → M B) : M B :=
  λ self,
    match m self with
    | (inr x, self') => k x self'
    | (inl e, self') => (inl e, self')
    end.

Definition raise {A} (e : exn) : M A := λ self, (inl e, self).

Definition lift {A} (r : exn + A) : M A := λ self, (r, self).

Definition get {A} (field : DrugInteractionChecker → A) : M A :=
  λ self, (inr (field self), self).

Definition modify (f : DrugInteractionChecker → DrugInteractionChecker) : M unit :=
  λ self, (inr tt, f self).

(** [try: body except Exception as e: handler(e)]; what the body assigned
    before it raised stays assigned. *)
Definition try_except {A} (body : M A) (handler : exn → M A) : M A :=
  λ self,
    match body self with
    | (inr x, self') => (inr x, self')
    | (inl e, self') => handler e self'
    end.

Notation "'let*' x ':=' m 'in' k" := (bind m (λ x, k))
  (at level 10, x name, m at level 100, k at level 200, only parsing).
Notation "m ';;' k" := (bind m (λ _, k))
  (at level 100, k at level 200, right associativity, only parsing).

Definition set_df (d : DataFrame) : M unit :=
  modify (λ self, mkChecker (Some d) (filepath self) (drug1_col self)
                            (drug2_col self) (level_col self)).
Definition set_drug1_col (c : string) : M unit :=
  modify (λ self, mkChecker (df self) (filepath self) (Some c)
                            (drug2_col self) (level_col self)).
Definition set_drug2_col (c : string) : M unit :=
  modify (λ self, mkChecker (df self) (filepath self) (drug1_col self)
                            (Some c) (level_col self)).
Definition set_level_col (c : string) : M unit :=
  modify (λ self, mkChecker (df self) (filepath self) (drug1_col self)
                            (drug2_col self) (Some c)).

(** [self.df], to be subscripted or asked for an attribute. *)
Definition self_df : M DataFrame :=
  let* d := get df in
  match d with
  | Some d => ret d
  | None => raise (TypeError "'NoneType' object is not subscriptable")
  end.

(** [self.<col>] used as a key of [self.df]; the key [None] is in no frame. *)
Definition self_col (field : DrugInteractionChecker → option string) : M string :=
  let* c := get field in
  match c with
  | Some c => ret c
  | None => raise (KeyError "None")
  end.

(** [self.df[self.<col>]] *)
Definition self_df_col (field : DrugInteractionChecker → option string) : M Series :=
  let* d := self_df in
  let* c := self_col field in
  lift (df_getitem d c).

(** A method of [str] called on an argument. *)
Definition as_str (a : py_arg) : M string :=
  match a with
  | Some s => ret s
  | None => raise (AttributeError "'NoneType' object has no attribute 'lower'")
  end.

(** [f"{x}"] for a [str] or [None]. *)
Definition fmt (a : option string) : string := default "None" a.

Definition is_drug_a (col : string) : bool :=
  str_in "drug" (lower col) && str_in "a" (lower col).
Definition is_drug_b (col : string) : bool :=
  str_in "drug" (lower col) && str_in "b" (lower col).
Definition is_level (col : string) : bool :=
  str_in "level" (lower col) || str_in "severity" (lower col).

(** [candidates[0] if candidates else self.df.columns[i]] *)
Definition first_or_column (candidates : list string) (d : DataFrame) (i : nat)
  : M string :=
  match candidates with
  | c :: _ => ret c
  | [] => lift (columns_at d i)
  end.

Section Load.

(** [pd.read_csv]: the frame read from a path, or the exception raised.
    The headers it returns are pairwise distinct. *)
Variable read_csv : string → exn + DataFrame.

(** [DrugInteractionChecker._load_data]; the calls to [print] are left
    out. *)
Definition _load_data : M unit :=
  try_except
    (let* path := get filepath in
     let* d := lift (read_csv path) in
     set_df d ;;
     (* Detect Drug_A column *)
     let* d := self_df in
     let drug_a_candidates := List.filter is_drug_a (columns d) in
     let* c := first_or_column drug_a_candidates d 1 in
     set_drug1_col c ;;
     (* Detect Drug_B column *)
     let drug_b_candidates := List.filter is_drug_b (columns d) in
     let* c := first_or_column drug_b_candidates d 3 in
     set_drug2_col c ;;
     (* Detect Level column *)
     let level_candidates := List.filter is_level (columns d) in
     let* c := first_or_column level_candidates d 4 in
     set_level_col c ;;
     (* Normalize drug names to lowercase *)
     let* ser := self_df_col drug1_col in
     let* d := self_df in let* c := self_col drug1_col in
     let* lowered := lift (str_lower (is_object_dtype d c) ser) in
     let* stripped := lift (str_strip (is_object_dtype d c) lowered) in
     set_df (df_setitem d c stripped) ;;
     let* ser := self_df_col drug2_col in
     let* d := self_df in let* c := self_col drug2_col in
     let* lowered := lift (str_lower (is_object_dtype d c) ser) in
     let* stripped := lift (str_strip (is_object_dtype d c) lowered) in
     set_df (df_setitem d c stripped))
    (λ e,
       let* path := get filepath in
       match e with
       | FileNotFoundError _ =>
           raise (FileNotFoundError ("CSV file not found: " +:+ path))
       | _ => raise (Exception ("Error loading data: " +:+ str_exn e))
       end).

(** [DrugInteractionChecker.__init__] *)
Definition __init__ (csv_filepath : string) : M unit :=
  modify (λ _, mkChecker None csv_filepath None None None) ;;
  _load_data.

(** [DrugInteractionChecker(csv_filepath)]: the instance, unless the
    constructor raised. *)
Definition new_checker (csv_filepath : string) : exn + DrugInteractionChecker :=
  match __init__ csv_filepath (mkChecker None "" None None None) with
  | (inr _, self) => inr self
  | (inl e, _) => inl e
  end.

End Load.

Definition invalid_input (msg : string) : result :=
  {| status := "invalid_input"; message := msg; data := None |}.

(** [DrugInteractionChecker.check_interaction] *)
Definition check_interaction (drug1 drug2 : py_arg) : M result :=
  (* Validate inputs *)
  let '(is_valid, error_msg) := _validate_drug_input drug1 in
  if negb is_valid then ret (invalid_input ("Drug 1 - " +:+ fmt error_msg)) else
  let '(is_valid, error_msg) := _validate_drug_input drug2 in
  if negb is_valid then ret (invalid_input ("Drug 2 - " +:+ fmt error_msg)) else
  (* Normalize inputs *)
  let* s1 := as_str drug1 in
  let d1 := strip (lower s1) in
  let* s2 := as_str drug2 in
  let d2 := strip (lower s2) in
  (* Check same drug *)
  if bool_decide (d1 = d2)
  then ret {| status := "error";
              message := "Cannot check interaction of a drug with itself";
              data := None |}
  else
  (* Search for interaction (both directions: A-B and B-A) *)
  let* a1 := self_df_col drug1_col in
  let* b2 := self_df_col drug2_col in
  let* a2 := self_df_col drug1_col in
  let* b1 := self_df_col drug2_col in
  let* d := self_df in
  let match_ :=
    df_where d (mask_or (mask_and (series_eq a1 d1) (series_eq b2 d2))
                        (mask_and (series_eq a2 d2) (series_eq b1 d1))) in
  (* Return results *)
  if negb (df_empty match_) then
    let* c1 := self_col drug1_col in
    let* c2 := self_col drug2_col in
    let* c3 := self_col level_col in
    let* sel := lift (df_select match_ [c1; c2; c3]) in
    let interactions := to_dict_records sel in
    ret {| status := "found";
           message := "Interaction found between " +:+ s1 +:+ " and " +:+ s2;
           data := Some interactions |}
  else
    ret {| status := "not_found";
           message := "No significant interaction found";
           data := None |}.

(** [DrugInteractionChecker.get_all_interactions_for_drug] *)
Definition get_all_interactions_for_drug (drug_name : py_arg) : M result :=
  let '(is_valid, error_msg) := _validate_drug_input drug_name in
  if negb is_valid then ret (invalid_input (fmt error_msg)) else
  let* name := as_str drug_name in
  let drug := strip (lower name) in
  (* Find all interactions *)
  let* a := self_df_col drug1_col in
  let* b := self_df_col drug2_col in
  let* d := self_df in
  let matches := df_where d (mask_or (series_eq a drug) (series_eq b drug)) in
  if negb (df_empty matches) then
    let* c1 := self_col drug1_col in
    let* c2 := self_col drug2_col in
    let* c3 := self_col level_col in
    let* sel := lift (df_select matches [c1; c2; c3]) in
    let interactions := to_dict_records sel in
    ret {| status := "found";
           message := "Found " +:+ pretty (length interactions)
                      +:+ " interaction(s) for " +:+ name;
           data := Some interactions |}
  else
    ret {| status := "not_found";
           message := "No interactions found for " +:+ name;
           data := None |}.

(** ** What the specification calls things *)

(** The index of the first element that passes a test. *)
Fixpoint first_index {A : Type} (p : A → bool) (l : list A) : option nat :=
  match l with
  | [] => None
  | x :: l' => if p x then Some 0%nat else S <$> first_index p l'
  end.

(** Column-role inference as a function of the header list: the position
    of the first header that passes the test, else the fallback position. *)
Definition role_index (p : string → bool) (fallback : nat) (headers : list string)
  : nat :=
  default fallback (first_index p headers).

Definition infer_roles (headers : list string) : nat * nat * nat :=
  (role_index is_drug_a 1 headers,
   role_index is_drug_b 3 headers,
   role_index is_level 4 headers).

(** The rows of the table an instance holds. *)
Definition table (self : DrugInteractionChecker) : list (gmap string string) :=
  from_option rows [] (df self).

(** The three fields of a row, under the column roles of the instance. *)
Definition drugA (self : DrugInteractionChecker) (row : gmap string string)
  : option string := drug1_col self ≫= λ c, row !! c.
Definition drugB (self : DrugInteractionChecker) (row : gmap string string)
  : option string := drug2_col self ≫= λ c, row !! c.
Definition level (self : DrugInteractionChecker) (row : gmap string string)
  : option string := level_col self ≫= λ c, row !! c.

(** The record a query reports for a row: its three role columns. *)
Definition record_of (self : DrugInteractionChecker) (row : gmap string string)
  : gmap string string :=
  restrict (omap id [drug1_col self; drug2_col self; level_col self]) row.

(** The order-insensitive pair match of the pairwise check. *)
Definition pair_match (self : DrugInteractionChecker) (d1 d2 : string)
    (row : gmap string string) : Prop :=
  (drugA self row = Some d1 ∧ drugB self row = Some d2)
  ∨ (drugA self row = Some d2 ∧ drugB self row = Some d1).

(** A row that names the drug in either drug column. *)
Definition mentions (self : DrugInteractionChecker) (drug : string)
    (row : gmap string string) : Prop :=
  drugA self row = Some drug ∨ drugB self row = Some drug.

#[global] Instance pair_match_dec self d1 d2 row : Decision (pair_match self d1 d2 row).
Proof. unfold pair_match. apply _. Defined.

#[global] Instance mentions_dec self drug row : Decision (mentions self drug row).
Proof. unfold mentions. apply _. Defined.

(** A name that passes validation. *)
Definition valid (a : py_arg) : Prop := (_validate_drug_input a).1 = true.

#[global] Instance valid_dec a : Decision (valid a).
Proof. unfold valid. apply _. Defined.

(** A string is a substring of another. *)
Definition substring (sub s : string) : Prop :=
  ∃ pre post, s = pre +:+ sub +:+ post.

(** The error result of a drug checked against itself. *)
Definition same_drug_error : result :=
  {| status := "error";
     message := "Cannot check interaction of a drug with itself";
     data := None |}.

(** A method body that leaves the instance as it found it. *)
Definition read_only {A} (m : M A) : Prop := ∀ self, (m self).2 = self.

(** What [_load_data] establishes: a frame is held and the three column
    roles name headers of it. *)
Definition loaded (self : DrugInteractionChecker) : Prop :=
  ∃ d c1 c2 c3,
    df self = Some d ∧ drug1_col self = Some c1 ∧ drug2_col self = Some c2
    ∧ level_col self = Some c3
    ∧ c1 ∈ columns d ∧ c2 ∈ columns d ∧ c3 ∈ columns d.

(** The column a role resolves to, as [_load_data] computes it. *)
Definition pick (p : string → bool) (i : nat) (cols : list string) : option string :=
  match List.filter p cols with
  | c :: _ => Some c
  | [] => cols !! i
  end.

(** A frame with one column normalised. *)
Definition norm_col (c : string) (d : DataFrame) : DataFrame :=
  {| columns := columns d; rows := alter normalize c <$> rows d;
     non_object := non_object d |}.

(** The level column of every instance built from a source holds what the
    source held. *)
Definition level_retained (read_csv : string → exn + DataFrame)
    (csv_filepath : string) : Prop :=
  ∀ self d0,
    new_checker read_csv csv_filepath = inr self →
    read_csv csv_filepath = inr d0 →
    level self <$> table self = level self <$> rows d0.

(** ** Tables used in the examples *)

Module Examples.

(** The table of the specification's examples, with a second row. *)
Definition interactions : DataFrame :=
  {| columns := ["id"; "Drug_A"; "note"; "Drug_B"; "Level"];
     rows :=
       [ {[ "id" := "1"; "Drug_A" := "Aspirin"; "note" := "-";
            "Drug_B" := "Warfarin"; "Level" := "Major" ]};
         {[ "id" := "2"; "Drug_A" := " Ibuprofen"; "note" := "-";
            "Drug_B" := "ASPIRIN "; "Level" := "Moderate" ]} ];
     non_object := ["id"] |}.

Definition read_interactions (path : string) : exn + DataFrame :=
  inr interactions.

(** The instance built from it: names in lower case and trimmed. *)
Definition checker : DrugInteractionChecker :=
  {| df := Some
       {| columns := ["id"; "Drug_A"; "note"; "Drug_B"; "Level"];
          rows :=
            [ {[ "id" := "1"; "Drug_A" := "aspirin"; "note" := "-";
                 "Drug_B" := "warfarin"; "Level" := "Major" ]};
              {[ "id" := "2"; "Drug_A" := "ibuprofen"; "note" := "-";
                 "Drug_B" := "aspirin"; "Level" := "Moderate" ]} ];
          non_object := ["id"] |};
     filepath := "drug_interaction.csv";
     drug1_col := Some "Drug_A";
     drug2_col := Some "Drug_B";
     level_col := Some "Level" |}.

(** A table whose level header comes first and also passes the drug-A
    test, by the "a" of "Interaction". *)
Definition shared_level : DataFrame :=
  {| columns := ["Drug_Interaction_Level"; "Drug_A"; "Drug_B"];
     rows := [ {[ "Drug_Interaction_Level" := "Major"; "Drug_A" := "Aspirin";
                  "Drug_B" := "Warfarin" ]} ];
     non_object := [] |}.

Definition read_shared_level (path : string) : exn + DataFrame :=
  inr shared_level.

Definition shared_level_checker : DrugInteractionChecker :=
  {| df := Some
       {| columns := ["Drug_Interaction_Level"; "Drug_A"; "Drug_B"];
          rows := [ {[ "Drug_Interaction_Level" := "major";
                       "Drug_A" := "Aspirin"; "Drug_B" := "warfarin" ]} ];
          non_object := [] |};
     filepath := "drug_interaction.csv";
     drug1_col := Some "Drug_Interaction_Level";
     drug2_col := Some "Drug_B";
     level_col := Some "Drug_Interaction_Level" |}.

(** A table whose drug-B header comes first and contains an "a". *)
Definition b_first : DataFrame :=
  {| columns := ["drug_b_name"; "drug_a_name"; "level"];
     rows := [ {[ "drug_b_name" := "Warfarin"; "drug_a_name" := "Aspirin";
                  "level" := "Major" ]} ];
     non_object := [] |}.

(** A table with one header that passes both drug tests. *)
Definition one_header : DataFrame :=
  {| columns := ["drug_a_b"; "level"];
     rows := [ {[ "drug_a_b" := "Aspirin"; "level" := "Major" ]} ];
     non_object := [] |}.

End Examples.

(** Two frames of five columns that the constructor refuses: the drug-A
    column holds numbers, and the drug-B column holds no cell at all. *)
Definition numeric_drug : DataFrame :=
  {| columns := ["id"; "Drug_A"; "note"; "Drug_B"; "Level"];
     rows :=
       [ {[ "id" := "1"; "Drug_A" := "101"; "note" := "-";
            "Drug_B" := "Warfarin"; "Level" := "Major" ]};
         {[ "id" := "2"; "Drug_A" := "102"; "note" := "-";
            "Drug_B" := "Aspirin"; "Level" := "Minor" ]} ];
     non_object := ["id"; "Drug_A"] |}.

Definition missing_drug : DataFrame :=
  {| columns := ["id"; "Drug_A"; "note"; "Drug_B"; "Level"];
     rows :=
       [ {[ "id" := "1"; "Drug_A" := "Aspirin"; "note" := "-";
            "Level" := "Major" ]};
         {[ "id" := "2"; "Drug_A" := "Ibuprofen"; "note" := "-";
            "Level" := "Minor" ]} ];
     non_object := ["id"] |}.

(** The instance built from [Examples.one_header]: one header for both
    drug roles. *)
Definition one_header_checker : DrugInteractionChecker :=
  {| df := Some
       {| columns := ["drug_a_b"; "level"];
          rows := [ {[ "drug_a_b" := "aspirin"; "level" := "Major" ]} ];
          non_object := [] |};
     filepath := "drug_interaction.csv";
     drug1_col := Some "drug_a_b";
     drug2_col := Some "drug_a_b";
     level_col := Some "level" |}.

(** Stand-ins for [str.upper] and [str.title] in the examples: the
    letters a to z only. *)
Definition ascii_upper (s : string) : string :=
  let up (c : ascii) :=
    if Char.between 97 122 c then ascii_of_N (Char.code c - 32) else c in
  (fix go (s : string) : string :=
     match s with
     | EmptyString => EmptyString
     | String c s' => String (up c) (go s')
     end) s.

(** What the two [except] clauses of [_load_data] make of an exception. *)
Definition wrap_load_error (csv_filepath : string) (e : exn) : exn :=
  match e with
  | FileNotFoundError _ =>
      FileNotFoundError ("CSV file not found: " +:+ csv_filepath)
  | _ => Exception ("Error loading data: " +:+ str_exn e)
  end.

(** ** The command line: [main] *)

(** How a run of [main] ends: it returns, an exception of the checker or
    of the display leaves it, or [input] finds the input at its end. *)
Inductive main_exit : Type :=
| Returned
| Raised (e : exn)
| RaisedEOFError.

(** The line feed, and [s * n]. *)
Definition nl : string := String (ascii_of_N 10) EmptyString.

Fixpoint str_mul (s : string) (n : nat) : string :=
  match n with
  | O => EmptyString
  | S n' => s +:+ str_mul s n'
  end.

(** [print(x)]: the text and a line feed, after what was written. The
    output of [main] is the list of its own writes; what the constructor
    prints is not part of it. *)
Definition print (x : string) (stdout : list string) : list string :=
  stdout ++ [x +:+ nl].

(** The prompt that [input(prompt)] writes before it reads. *)
Definition write (prompt : string) (stdout : list string) : list string :=
  stdout ++ [prompt].

(** [word.lower() in ['quit', 'exit', 'q']] *)
Definition is_quit (word : string) : bool :=
  bool_decide (lower word ∈ ["quit"; "exit"; "q"]).

Definition goodbye : string :=
  nl +:+ "Thank you for using Drug Interaction Checker. Goodbye!".

Section Main.

(** [pd.read_csv], and the two methods of [str] that the display calls and
    that leave the Latin-1 range on some letters: [str.upper] and
    [str.title]. *)
Variable read_csv : string → exn + DataFrame.
Variable str_upper : string → string.
Variable str_title : string → string.

(** [interaction[col].title()], for [col] one of the column roles: the key
    [None] is in no dict, and a missing cell is a float. *)
Definition cell_title (col : option string) (interaction : gmap string string)
  : exn + string :=
  match col with
  | None => inl (KeyError "None")
  | Some c =>
      match interaction !! c with
      | Some v => inr (str_title v)
      | None => inl (AttributeError "'float' object has no attribute 'title'")
      end
  end.

(** [f"{interaction[col]}"] *)
Definition cell_format (col : option string) (interaction : gmap string string)
  : exn + string :=
  match col with
  | None => inl (KeyError "None")
  | Some c => inr (default "nan" (interaction !! c))
  end.

(** The three prints for one record; a print made stays made when a later
    lookup raises. *)
Definition show_interaction (checker : DrugInteractionChecker)
    (interaction : gmap string string) (stdout : list string)
  : option exn * list string :=
  match cell_title (drug1_col checker) interaction with
  | inl e => (Some e, stdout)
  | inr a =>
      let stdout := print (nl +:+ "Drug A: " +:+ a) stdout in
      match cell_title (drug2_col checker) interaction with
      | inl e => (Some e, stdout)
      | inr b =>
          let stdout := print ("Drug B: " +:+ b) stdout in
          match cell_format (level_col checker) interaction with
          | inl e => (Some e, stdout)
          | inr l => (None, print ("Interaction Level: " +:+ l) stdout)
          end
      end
  end.

(** [for interaction in result['data']: ...] *)
Fixpoint show_interactions (checker : DrugInteractionChecker)
    (interactions : list (gmap string string)) (stdout : list string)
  : option exn * list string :=
  match interactions with
  | [] => (None, stdout)
  | interaction :: rest =>
      match show_interaction checker interaction stdout with
      | (Some e, stdout) => (Some e, stdout)
      | (None, stdout) => show_interactions checker rest stdout
      end
  end.

(** The display of one result, from the status line to the closing rule. *)
Definition show_result (checker : DrugInteractionChecker) (r : result)
    (stdout : list string) : option exn * list string :=
  let stdout := print (nl +:+ str_mul "=" 70) stdout in
  let stdout := print ("STATUS: " +:+ str_upper (status r)) stdout in
  let stdout := print (str_mul "=" 70) stdout in
  let stdout := print (message r) stdout in
  match
    match data r with
    | Some ((_ :: _) as interactions) =>
        show_interactions checker interactions (print (str_mul "-" 70) stdout)
    | _ => (None, stdout)
    end
  with
  | (Some e, stdout) => (Some e, stdout)
  | (None, stdout) => (None, print (str_mul "=" 70) stdout)
  end.

(** The [while True] loop of [main]. Each turn reads one or two lines of
    [stdin]; it gives how the run ends, the instance, the lines not read
    and the output. *)
Fixpoint main_loop (checker : DrugInteractionChecker) (stdin : list string)
    (stdout : list string) {struct stdin}
  : main_exit * (DrugInteractionChecker * list string * list string) :=
  let stdout := print nl stdout in
  let stdout := write "Enter Drug 1: " stdout in
  match stdin with
  | [] => (RaisedEOFError, (checker, [], stdout))
  | line :: stdin =>
      let drug1 := strip line in
      if is_quit drug1 then (Returned, (checker, stdin, print goodbye stdout))
      else
        let stdout := write "Enter Drug 2: " stdout in
        match stdin with
        | [] => (RaisedEOFError, (checker, [], stdout))
        | line :: stdin =>
            let drug2 := strip line in
            if is_quit drug2
            then (Returned, (checker, stdin, print goodbye stdout))
            else
              (* Check interaction *)
              match check_interaction (Some drug1) (Some drug2) checker with
              | (inl e, checker) => (Raised e, (checker, stdin, stdout))
              | (inr r, checker) =>
                  (* Display results *)
                  match show_result checker r stdout with
                  | (Some e, stdout) => (Raised e, (checker, stdin, stdout))
                  | (None, stdout) => main_loop checker stdin stdout
                  end
              end
        end
  end.

Definition banner (stdout : list string) : list string :=
  let stdout := print (str_mul "=" 70) stdout in
  let stdout := print (str_mul " " 18 +:+ "DRUG-DRUG INTERACTION CHECKER") stdout in
  let stdout := print (str_mul "=" 70) stdout in
  let stdout := print "Enter two drug names to check for interactions" stdout in
  let stdout := print "Type 'quit' or 'exit' at any time to close" stdout in
  print (str_mul "=" 70) stdout.

(** [main()]: how it ends, the lines of [stdin] it did not read, and what it
    wrote. *)
Definition main (stdin : list string) : main_exit * (list string * list string) :=
  (* Initialize the checker *)
  match new_checker read_csv "drug_interaction.csv" with
  | inl e =>
      let stdout := print (nl +:+ "Error: " +:+ str_exn e) [] in
      let stdout :=
        print "Make sure 'drug_interaction.csv' is in the same folder as this script."
              stdout in
      (Returned, (stdin, stdout))
  | inr checker =>
      let '(exit, (_, stdin, stdout)) := main_loop checker stdin (banner []) in
      (exit, (stdin, stdout))
  end.

End Main.

(** ** The login page: [app.py] *)

Module App.

(** Dummy credentials *)
Definition USERNAME : string := "admin".
Definition PASSWORD : string := "1234".

(** What a view reads of the request: its method and its form. *)
Record request : Type := mkRequest {
  method : string;
  form : gmap string string
}.

(** What a view returns: a text body, a redirect, or a rendered template. *)
Inductive response : Type :=
| Body (text : string)
| Redirect (location : string)
| Template (name : string).

(** [request.form[key]] on a key the form lacks. *)
Inductive http_error : Type :=
| BadRequestKeyError (key : string).

(** [home]: [redirect(url_for('login'))], the route of [login] being
    "/login". *)
Definition home : response := Redirect "/login".

Definition form_get (req : request) (key : string) : http_error + string :=
  match form req !! key with
  | Some v => inr v
  | None => inl (BadRequestKeyError key)
  end.

(** [login] *)
Definition login (req : request) : http_error + response :=
  if bool_decide (method req = "POST") then
    match form_get req "username" with
    | inl e => inl e
    | inr username =>
        match form_get req "password" with
        | inl e => inl e
        | inr password =>
            if bool_decide (username = USERNAME)
               && bool_decide (password = PASSWORD)
            then inr (Body ("Welcome, " +:+ username +:+ "!"))
            else inr (Body "Invalid credentials, please try again.")
        end
    end
  else inr (Template "login.html").

End App.

(** * Properties *)

(** ** Characters and strings *)

Ltac each_char c := destruct c as [[] [] [] [] [] [] [] []]; reflexivity.

Lemma char_lower_not_upper c : Char.isupper (Char.lower c) = false.
Proof. each_char c. Qed.

Lemma char_lower_isspace c : Char.isspace (Char.lower c) = Char.isspace c.
Proof. each_char c. Qed.

Lemma char_lower_fix c : Char.isupper c = false → Char.lower c = c.
Proof. unfold Char.lower. by intros ->. Qed.

Lemma lower_is_lowercase s : is_lowercase (lower s) = true.
Proof.
  induction s as [|c s IH]; [done|].
  cbn. rewrite char_lower_not_upper. exact IH.
Qed.

Lemma lower_fix s : is_lowercase s = true → lower s = s.
Proof.
  induction s as [|c s IH]; [done|].
  cbn. intros [Hc Hs]%andb_true_iff.
  rewrite char_lower_fix, IH; [done..|]. by destruct (Char.isupper c).
Qed.

Lemma lower_lower s : lower (lower s) = lower s.
Proof. apply lower_fix, lower_is_lowercase. Qed.

Lemma lstrip_not_blank s : starts_blank (lstrip s) = false.
Proof.
  induction s as [|c s IH]; [done|].
  cbn. destruct (Char.isspace c) eqn:Hc; [exact IH|]. cbn. exact Hc.
Qed.

Lemma lstrip_fix s : starts_blank s = false → lstrip s = s.
Proof. destruct s as [|c s]; [done|]. cbn. by intros ->. Qed.

Lemma rstrip_not_blank s : ends_blank (rstrip s) = false.
Proof.
  induction s as [|c s IH]; [done|].
  cbn. destruct (rstrip s) as [|c' r] eqn:Hr.
  - by destruct (Char.isspace c) eqn:Hc; cbn.
  - exact IH.
Qed.

Lemma rstrip_fix s : ends_blank s = false → rstrip s = s.
Proof.
  induction s as [|c s IH]; [done|].
  destruct s as [|c' s'].
  - cbn. by intros ->.
  - intros H. change (ends_blank (String c' s') = false) in H.
    specialize (IH H). cbn in *. by rewrite IH.
Qed.

Lemma rstrip_starts s : starts_blank s = false → starts_blank (rstrip s) = false.
Proof.
  destruct s as [|c s]; [done|].
  cbn. intros Hc. destruct (rstrip s); [by rewrite Hc; cbn|done].
Qed.

Lemma strip_is_trimmed s : is_trimmed (strip s) = true.
Proof.
  unfold is_trimmed, strip.
  by rewrite rstrip_not_blank, rstrip_starts by apply lstrip_not_blank.
Qed.

Lemma strip_fix s : is_trimmed s = true → strip s = s.
Proof.
  unfold is_trimmed, strip.
  intros [H1%negb_true_iff H2%negb_true_iff]%andb_true_iff.
  by rewrite lstrip_fix, rstrip_fix.
Qed.

Lemma strip_strip s : strip (strip s) = strip s.
Proof. apply strip_fix, strip_is_trimmed. Qed.

Lemma lstrip_all p s : str_all p s = true → str_all p (lstrip s) = true.
Proof.
  induction s as [|c s IH]; [done|].
  cbn. intros [Hc Hs]%andb_true_iff.
  destruct (Char.isspace c); [by apply IH|]. cbn. by rewrite Hc, Hs.
Qed.

Lemma rstrip_all p s : str_all p s = true → str_all p (rstrip s) = true.
Proof.
  induction s as [|c s IH]; [done|].
  cbn. intros [Hc Hs]%andb_true_iff. specialize (IH Hs).
  destruct (rstrip s) as [|c' r].
  - destruct (Char.isspace c); [done|]. cbn. by rewrite Hc.
  - cbn in *. by rewrite Hc, IH.
Qed.

Lemma strip_all p s : str_all p s = true → str_all p (strip s) = true.
Proof. intros. by apply rstrip_all, lstrip_all. Qed.

Lemma normalize_is_lowercase s : is_lowercase (normalize s) = true.
Proof. apply strip_all, lower_is_lowercase. Qed.

Lemma normalize_is_trimmed s : is_trimmed (normalize s) = true.
Proof. apply strip_is_trimmed. Qed.

Lemma normalize_fix s :
  is_lowercase s = true → is_trimmed s = true → normalize s = s.
Proof. intros Hl Ht. unfold normalize. by rewrite lower_fix, strip_fix. Qed.

Lemma normalize_normalize s : normalize (normalize s) = normalize s.
Proof.
  apply normalize_fix; [apply normalize_is_lowercase|apply normalize_is_trimmed].
Qed.

Lemma append_cons c s t : String c s +:+ t = String c (s +:+ t).
Proof. reflexivity. Qed.

Lemma append_empty s : EmptyString +:+ s = s.
Proof. reflexivity. Qed.

(** [str_in] decides the substring relation. *)
Lemma prefix_spec sub s : String.prefix sub s = true ↔ ∃ post, s = sub +:+ post.
Proof.
  revert s. induction sub as [|a sub IH]; intros s.
  - split; [intros _; by exists s|by destruct s].
  - destruct s as [|b s]; cbn.
    + split; [done|]. by intros [post ?].
    + destruct (ascii_dec a b) as [->|Hab].
      * rewrite IH. split; intros [post H]; exists post;
          rewrite append_cons in *; congruence.
      * split; [done|]. intros [post H]. rewrite append_cons in H. congruence.
Qed.

Lemma str_in_spec sub s : str_in sub s = true ↔ substring sub s.
Proof.
  unfold substring. induction s as [|c s IH].
  - cbn [str_in]. rewrite orb_false_r, prefix_spec. split.
    + intros [post H]. by exists EmptyString, post.
    + intros [[|c pre] [post H]]; [by exists post|].
      by rewrite append_cons in H.
  - cbn [str_in]. rewrite orb_true_iff, IH, prefix_spec. split.
    + intros [[post H]|(pre & post & H)].
      * by exists EmptyString, post.
      * exists (String c pre), post. by rewrite append_cons, H.
    + intros ([|c' pre] & post & H).
      * left. by exists post.
      * right. exists pre, post. rewrite append_cons in H. congruence.
Qed.

(** The regular expression accepts exactly the non-empty strings made of
    characters of its class. *)
Lemma more_then_end_all s : Re.more_then_end s = str_all Re.numeric_class s.
Proof.
  induction s as [|c s IH]; [done|].
  cbn [Re.more_then_end str_all]. rewrite IH.
  destruct (Re.at_end (String c s)) eqn:Hend; [|done].
  destruct s as [|c' s']; [|done]. cbn in Hend. cbn.
  unfold Re.numeric_class, Char.isdecimal, Char.isspace, Char.between.
  apply N.eqb_eq in Hend. by rewrite Hend.
Qed.

Lemma match_numeric_spec s :
  Re.match_numeric s = true ↔ s ≠ EmptyString ∧ str_all Re.numeric_class s = true.
Proof.
  destruct s as [|c s]; cbn.
  - split; [done|]. by intros [? _].
  - rewrite more_then_end_all. split; [done|]. by intros [_ ?].
Qed.

(** ** Validation *)

Lemma validate_some name :
  _validate_drug_input (Some name) =
    if bool_decide (strip name = EmptyString) then (false, Some msg_empty)
    else if str_all Re.numeric_class (strip name) then (false, Some msg_numeric)
    else (true, None).
Proof.
  unfold _validate_drug_input.
  destruct name as [|c name]; [done|].
  destruct (strip (String c name)) as [|c' t] eqn:Ht; [done|].
  cbn [truthy negb orb]. rewrite bool_decide_eq_false_2 by done.
  unfold Re.match_numeric. by rewrite more_then_end_all.
Qed.

Lemma valid_inv a :
  valid a → ∃ name, a = Some name ∧ _validate_drug_input a = (true, None).
Proof.
  unfold valid. destruct a as [name|]; [|done].
  intros Hv. exists name. split; [done|]. revert Hv. rewrite validate_some.
  destruct (bool_decide _); [done|]. by destruct (str_all _ _).
Qed.

Lemma invalid_inv a :
  ¬ valid a →
  ∃ msg, _validate_drug_input a = (false, Some msg)
         ∧ (msg = msg_empty ∨ msg = msg_numeric).
Proof.
  unfold valid. destruct a as [name|]; [|by exists msg_empty; auto].
  rewrite validate_some.
  destruct (bool_decide _); [by exists msg_empty; auto|].
  destruct (str_all _ _); [by exists msg_numeric; auto|].
  intros Hv. by destruct Hv.
Qed.

(** ** Masks *)

Lemma mask_and_fmap {A} (f g : A → bool) (l : list A) :
  mask_and (f <$> l) (g <$> l) = (λ x, f x && g x) <$> l.
Proof. unfold mask_and. induction l; cbn; congruence. Qed.

Lemma mask_or_fmap {A} (f g : A → bool) (l : list A) :
  mask_or (f <$> l) (g <$> l) = (λ x, f x || g x) <$> l.
Proof. unfold mask_or. induction l; cbn; congruence. Qed.

Lemma series_eq_fmap {A} (f : A → option string) (l : list A) v :
  series_eq (f <$> l) v = (λ x, bool_decide (f x = Some v)) <$> l.
Proof. unfold series_eq. by rewrite <- list_fmap_compose. Qed.

Lemma select_mask_filter {A} (P : A → Prop) `{!∀ x, Decision (P x)}
    (f : A → bool) (l : list A) :
  (∀ x, f x = true ↔ P x) → select_mask l (f <$> l) = filter P l.
Proof.
  intros Hf. induction l as [|x l IH]; [done|].
  rewrite fmap_cons, filter_cons. cbn [select_mask]. rewrite IH.
  destruct (f x) eqn:Hx, (decide (P x)) as [HP|HP]; try done.
  - by apply Hf in Hx.
  - apply Hf in HP. congruence.
Qed.

(** ** Queries leave the instance alone *)

Lemma read_only_ret {A} (x : A) : read_only (ret x).
Proof. done. Qed.

Lemma read_only_raise {A} e : read_only (raise (A:=A) e).
Proof. done. Qed.

Lemma read_only_lift {A} (r : exn + A) : read_only (lift r).
Proof. done. Qed.

Lemma read_only_get {A} (field : DrugInteractionChecker → A) :
  read_only (get field).
Proof. done. Qed.

Lemma read_only_bind {A B} (m : M A) (k : A → M B) :
  read_only m → (∀ x, read_only (k x)) → read_only (bind m k).
Proof.
  intros Hm Hk self. unfold bind. specialize (Hm self).
  destruct (m self) as [[e|x] self']; cbn in *; subst; [done|apply Hk].
Qed.

Ltac read_only_step :=
  first
    [ apply read_only_ret | apply read_only_raise | apply read_only_lift
    | apply read_only_get | apply read_only_bind; [|intros ?]
    | match goal with |- read_only (match ?x with _ => _ end) => destruct x end
    | match goal with |- read_only (if ?b then _ else _) => destruct b end ].

Lemma read_only_self_df : read_only self_df.
Proof. unfold self_df. repeat read_only_step. Qed.

Lemma read_only_self_col field : read_only (self_col field).
Proof. unfold self_col. repeat read_only_step. Qed.

Lemma read_only_self_df_col field : read_only (self_df_col field).
Proof.
  unfold self_df_col.
  apply read_only_bind; [apply read_only_self_df|intros ?].
  apply read_only_bind; [apply read_only_self_col|intros ?].
  apply read_only_lift.
Qed.

Lemma read_only_as_str a : read_only (as_str a).
Proof. unfold as_str. repeat read_only_step. Qed.

Create HintDb read_only.

#[local] Hint Resolve read_only_self_df read_only_self_col
  read_only_self_df_col read_only_as_str : read_only.

Ltac read_only_tac :=
  repeat first [ solve [auto with read_only] | read_only_step ].

Lemma read_only_check_interaction drug1 drug2 :
  read_only (check_interaction drug1 drug2).
Proof. unfold check_interaction. read_only_tac. Qed.

Lemma read_only_get_all drug_name :
  read_only (get_all_interactions_for_drug drug_name).
Proof. unfold get_all_interactions_for_drug. read_only_tac. Qed.

(** ** Instances that a constructor call returned *)

Ltac run_monad :=
  cbv [bind ret raise lift get self_df_col self_df self_col as_str
       df drug1_col drug2_col level_col filepath].

Ltac open_loaded H :=
  let d := fresh "d" in
  let c1 := fresh "c1" in let c2 := fresh "c2" in let c3 := fresh "c3" in
  let Hd := fresh "Hd" in
  let H1 := fresh "H1" in let H2 := fresh "H2" in let H3 := fresh "H3" in
  destruct H as (d & c1 & c2 & c3 & Hd & H1 & H2 & H3 & ? & ? & ?);
  match type of Hd with
  | df ?self = _ => destruct self; cbn in Hd, H1, H2, H3; simplify_eq
  end.

Lemma self_df_col_drug1 self :
  loaded self → self_df_col drug1_col self = (inr (drugA self <$> table self), self).
Proof.
  intros Hl. open_loaded Hl. run_monad.
  unfold df_getitem. by rewrite bool_decide_eq_true_2.
Qed.

Lemma self_df_col_drug2 self :
  loaded self → self_df_col drug2_col self = (inr (drugB self <$> table self), self).
Proof.
  intros Hl. open_loaded Hl. run_monad.
  unfold df_getitem. by rewrite bool_decide_eq_true_2.
Qed.

Lemma bind_inr {A B} (m : M A) (k : A → M B) self x self' :
  m self = (inr x, self') → bind m k self = k x self'.
Proof. unfold bind. by intros ->. Qed.

Lemma self_df_loaded self :
  loaded self → ∃ d, df self = Some d ∧ self_df self = (inr d, self).
Proof. intros Hl. open_loaded Hl. by eexists. Qed.

Lemma self_col_some field self c :
  field self = Some c → self_col field self = (inr c, self).
Proof. intros H. run_monad. by rewrite H. Qed.

Lemma df_select_roles d cols :
  Forall (λ c, c ∈ columns d) cols →
  df_select d cols
  = inr {| columns := cols; rows := restrict cols <$> rows d;
           non_object := List.filter (λ c, bool_decide (c ∈ cols))
                                     (non_object d) |}.
Proof.
  intros Hin. unfold df_select.
  destruct (List.find _ cols) as [c|] eqn:Hfind; [|done].
  apply List.find_some in Hfind as [Hc Hneg].
  rewrite Forall_forall in Hin. apply list_elem_of_In, Hin in Hc.
  by rewrite bool_decide_eq_true_2 in Hneg.
Qed.

Lemma df_empty_where d mask c :
  c ∈ columns d →
  df_empty (df_where d mask) = bool_decide (select_mask (rows d) mask = []).
Proof.
  intros Hc. unfold df_empty, df_where. cbn.
  rewrite (bool_decide_eq_false_2 (columns d = [])), orb_false_r; [done|].
  intros Hnil. rewrite Hnil in Hc. by apply elem_of_nil in Hc.
Qed.

(** The search of [check_interaction] on a constructed instance. *)
Lemma check_interaction_search self n1 n2 :
  loaded self → valid (Some n1) → valid (Some n2) →
  normalize n1 ≠ normalize n2 →
  check_interaction (Some n1) (Some n2) self =
    (inr (let hits :=
            filter (pair_match self (normalize n1) (normalize n2)) (table self) in
          if bool_decide (hits = [])
          then {| status := "not_found";
                  message := "No significant interaction found";
                  data := None |}
          else {| status := "found";
                  message := "Interaction found between " +:+ n1 +:+ " and " +:+ n2;
                  data := Some (record_of self <$> hits) |}),
     self).
Proof.
  intros Hl (? & _ & Hv1)%valid_inv (? & _ & Hv2)%valid_inv Hne.
  unfold check_interaction. rewrite Hv1, Hv2. cbn [negb as_str].
  rewrite (bind_inr (ret n1) _ self n1 self) by done.
  rewrite (bind_inr (ret n2) _ self n2 self) by done.
  fold (normalize n1) (normalize n2).
  rewrite bool_decide_eq_false_2 by done.
  rewrite (bind_inr _ _ _ _ _ (self_df_col_drug1 self Hl)).
  rewrite (bind_inr _ _ _ _ _ (self_df_col_drug2 self Hl)).
  rewrite (bind_inr _ _ _ _ _ (self_df_col_drug1 self Hl)).
  rewrite (bind_inr _ _ _ _ _ (self_df_col_drug2 self Hl)).
  destruct (self_df_loaded self Hl) as (d & Hd & Hrun).
  rewrite (bind_inr _ _ _ _ _ Hrun).
  rewrite !series_eq_fmap, !mask_and_fmap, mask_or_fmap.
  assert (table self = rows d) as Htab by (unfold table; by rewrite Hd).
  rewrite Htab.
  destruct Hl as (d' & c1 & c2 & c3 & Hd' & H1 & H2 & H3 & Hc1 & Hc2 & Hc3).
  assert (d' = d) as -> by congruence.
  rewrite (df_empty_where d _ c1 Hc1).
  unfold df_where. cbn [rows columns].
  rewrite (select_mask_filter (pair_match self (normalize n1) (normalize n2))).
  2:{ intros row. unfold pair_match.
      rewrite orb_true_iff, !andb_true_iff, !bool_decide_eq_true. done. }
  set (hits := filter _ (rows d)).
  destruct (bool_decide (hits = [])) eqn:Hhits; cbn [negb].
  - done.
  - rewrite (bind_inr _ _ _ _ _ (self_col_some drug1_col self c1 H1)).
    rewrite (bind_inr _ _ _ _ _ (self_col_some drug2_col self c2 H2)).
    rewrite (bind_inr _ _ _ _ _ (self_col_some level_col self c3 H3)).
    unfold lift. rewrite df_select_roles by (cbn; by repeat constructor).
    rewrite (bind_inr _ _ self _ self) by reflexivity.
    unfold ret, to_dict_records, record_of. cbn [rows].
    by rewrite H1, H2, H3.
Qed.

Lemma check_interaction_invalid1 drug1 drug2 self msg :
  _validate_drug_input drug1 = (false, Some msg) →
  check_interaction drug1 drug2 self =
    (inr (invalid_input ("Drug 1 - " +:+ msg)), self).
Proof. intros Hv. unfold check_interaction. by rewrite Hv. Qed.

Lemma check_interaction_invalid2 drug1 drug2 self msg :
  valid drug1 → _validate_drug_input drug2 = (false, Some msg) →
  check_interaction drug1 drug2 self =
    (inr (invalid_input ("Drug 2 - " +:+ msg)), self).
Proof.
  intros (? & _ & Hv1)%valid_inv Hv2. unfold check_interaction.
  by rewrite Hv1, Hv2.
Qed.

Lemma check_interaction_same n1 n2 self :
  valid (Some n1) → valid (Some n2) → normalize n1 = normalize n2 →
  check_interaction (Some n1) (Some n2) self = (inr same_drug_error, self).
Proof.
  intros (? & _ & Hv1)%valid_inv (? & _ & Hv2)%valid_inv Heq.
  unfold check_interaction. rewrite Hv1, Hv2. cbn [negb as_str].
  rewrite (bind_inr (ret n1) _ self n1 self) by done.
  rewrite (bind_inr (ret n2) _ self n2 self) by done.
  fold (normalize n1) (normalize n2).
  by rewrite bool_decide_eq_true_2.
Qed.

Lemma get_all_invalid drug_name self msg :
  _validate_drug_input drug_name = (false, Some msg) →
  get_all_interactions_for_drug drug_name self = (inr (invalid_input msg), self).
Proof. intros Hv. unfold get_all_interactions_for_drug. by rewrite Hv. Qed.

(** The search of [get_all_interactions_for_drug] on a constructed
    instance. *)
Lemma get_all_search self name :
  loaded self → valid (Some name) →
  get_all_interactions_for_drug (Some name) self =
    (inr (let hits := filter (mentions self (normalize name)) (table self) in
          if bool_decide (hits = [])
          then {| status := "not_found";
                  message := "No interactions found for " +:+ name;
                  data := None |}
          else {| status := "found";
                  message := "Found " +:+ pretty (length hits)
                             +:+ " interaction(s) for " +:+ name;
                  data := Some (record_of self <$> hits) |}),
     self).
Proof.
  intros Hl (? & _ & Hv)%valid_inv.
  unfold get_all_interactions_for_drug. rewrite Hv. cbn [negb as_str].
  rewrite (bind_inr (ret name) _ self name self) by done.
  fold (normalize name).
  rewrite (bind_inr _ _ _ _ _ (self_df_col_drug1 self Hl)).
  rewrite (bind_inr _ _ _ _ _ (self_df_col_drug2 self Hl)).
  destruct (self_df_loaded self Hl) as (d & Hd & Hrun).
  rewrite (bind_inr _ _ _ _ _ Hrun).
  rewrite !series_eq_fmap, mask_or_fmap.
  assert (table self = rows d) as Htab by (unfold table; by rewrite Hd).
  rewrite Htab.
  destruct Hl as (d' & c1 & c2 & c3 & Hd' & H1 & H2 & H3 & Hc1 & Hc2 & Hc3).
  assert (d' = d) as -> by congruence.
  rewrite (df_empty_where d _ c1 Hc1).
  unfold df_where. cbn [rows columns].
  rewrite (select_mask_filter (mentions self (normalize name))).
  2:{ intros row. unfold mentions.
      rewrite orb_true_iff, !bool_decide_eq_true. done. }
  set (hits := filter _ (rows d)).
  destruct (bool_decide (hits = [])) eqn:Hhits; cbn [negb].
  - done.
  - rewrite (bind_inr _ _ _ _ _ (self_col_some drug1_col self c1 H1)).
    rewrite (bind_inr _ _ _ _ _ (self_col_some drug2_col self c2 H2)).
    rewrite (bind_inr _ _ _ _ _ (self_col_some level_col self c3 H3)).
    unfold lift. rewrite df_select_roles by (cbn; by repeat constructor).
    rewrite (bind_inr _ _ self _ self) by reflexivity.
    unfold ret, to_dict_records, record_of. cbn [rows].
    by rewrite H1, H2, H3, length_fmap.
Qed.

(** ** Construction *)

Lemma first_index_Some {A} (p : A → bool) l j :
  first_index p l = Some j →
  ∃ x, l !! j = Some x ∧ p x = true ∧ head (List.filter p l) = Some x
       ∧ ∀ k y, (k < j)%nat → l !! k = Some y → p y = false.
Proof.
  revert j. induction l as [|a l IH]; intros j; [done|].
  cbn. destruct (p a) eqn:Ha.
  - intros [= <-]. exists a. repeat split; [done..|]. lia.
  - destruct (first_index p l) as [j'|]; [|done]. intros [= <-].
    destruct (IH j' eq_refl) as (x & Hx & Hp & Hh & Hlt).
    exists x. repeat split; [done..|].
    intros [|k] y Hk; cbn; [by intros [= <-]|]. apply Hlt. lia.
Qed.

Lemma first_index_None {A} (p : A → bool) l :
  first_index p l = None → List.filter p l = [].
Proof.
  induction l as [|a l IH]; [done|].
  cbn. destruct (p a); [done|].
  destruct (first_index p l); [done|]. auto.
Qed.

Lemma pick_role_index p i cols : pick p i cols = cols !! role_index p i cols.
Proof.
  unfold pick, role_index.
  destruct (first_index p cols) as [j|] eqn:Hj; cbn.
  - apply first_index_Some in Hj as (x & Hx & _ & Hh & _).
    destruct (List.filter p cols); [done|]. cbn in Hh. congruence.
  - by rewrite (first_index_None _ _ Hj).
Qed.

Lemma pick_elem_of p i cols c : pick p i cols = Some c → c ∈ cols.
Proof. rewrite pick_role_index. apply list_elem_of_lookup_2. Qed.

Lemma filter_other_id (col : string) (l : list string) :
  col ∉ l → List.filter (λ c, negb (bool_decide (c = col))) l = l.
Proof.
  induction l as [|x l IH]; [done|].
  intros [Hx Hl]%not_elem_of_cons. cbn.
  rewrite bool_decide_eq_false_2 by done. cbn. by rewrite IH.
Qed.

Lemma is_object_not_listed d c :
  is_object_dtype d c = true → c ∉ non_object d.
Proof.
  unfold is_object_dtype. intros [Hc _]%andb_true_iff.
  by apply negb_true_iff, bool_decide_eq_false in Hc.
Qed.

Lemma df_setitem_norm d c :
  c ∈ columns d → is_object_dtype d c = true →
  df_setitem d c (fmap (M:=option) strip
                    <$> (fmap (M:=option) lower
                           <$> ((λ row : gmap string string, row !! c)
                                  <$> rows d))) = norm_col c d.
Proof.
  intros Hc Hobj. unfold df_setitem, norm_col.
  rewrite bool_decide_eq_true_2 by done.
  rewrite filter_other_id by (by apply is_object_not_listed).
  f_equal.
  induction (rows d) as [|row l IH]; [done|].
  cbn. f_equal; [|exact IH].
  apply partial_alter_ext. intros x ->. by destruct x.
Qed.

Lemma is_object_norm_col d c c' :
  is_object_dtype (norm_col c d) c' = is_object_dtype d c'.
Proof.
  unfold is_object_dtype, norm_col. cbn. f_equal. f_equal.
  - destruct (rows d); [done|]. by rewrite !bool_decide_eq_false_2.
  - induction (rows d) as [|row l IH]; [done|].
    cbn. rewrite IH. f_equal. apply bool_decide_ext.
    by rewrite lookup_alter_is_Some.
Qed.

Section LoadProps.

Variable read_csv : string → exn + DataFrame.

Lemma new_checker_ok fp d0 c1 c2 c3 :
  read_csv fp = inr d0 →
  pick is_drug_a 1 (columns d0) = Some c1 →
  pick is_drug_b 3 (columns d0) = Some c2 →
  pick is_level 4 (columns d0) = Some c3 →
  is_object_dtype d0 c1 = true →
  is_object_dtype d0 c2 = true →
  new_checker read_csv fp =
    inr (mkChecker (Some (norm_col c2 (norm_col c1 d0))) fp
                   (Some c1) (Some c2) (Some c3)).
Proof.
  intros Hr Hp1 Hp2 Hp3 Hobj1 Hobj2.
  pose proof (pick_elem_of _ _ _ _ Hp1) as Hc1.
  pose proof (pick_elem_of _ _ _ _ Hp2) as Hc2.
  unfold new_checker, __init__, _load_data.
  cbv [bind ret raise lift get modify try_except set_df set_drug1_col
       set_drug2_col set_level_col self_df_col self_df self_col
       df drug1_col drug2_col level_col filepath].
  rewrite Hr.
  assert (∀ p i c M, pick p i (columns d0) = Some c →
            first_or_column (List.filter p (columns d0)) d0 i M = (inr c, M))
    as Hfirst.
  { intros p i c M. unfold pick, first_or_column, columns_at, lift, ret.
    destruct (List.filter p (columns d0)); [|congruence]. by intros ->. }
  rewrite (Hfirst _ _ _ _ Hp1), (Hfirst _ _ _ _ Hp2), (Hfirst _ _ _ _ Hp3).
  unfold df_getitem at 1. rewrite bool_decide_eq_true_2 by done.
  rewrite Hobj1. cbv [str_lower str_strip].
  rewrite df_setitem_norm by done.
  unfold df_getitem. rewrite bool_decide_eq_true_2 by done.
  rewrite is_object_norm_col, Hobj2.
  by rewrite (df_setitem_norm (norm_col c1 d0))
    by (by rewrite ?is_object_norm_col).
Qed.

(** A frame on which the constructor raises after the read: a fallback
    position is outside the headers, or a resolved drug column is not of
    object dtype. *)
Lemma new_checker_load_error fp d0 :
  read_csv fp = inr d0 →
  (pick is_drug_a 1 (columns d0) = None
   ∨ pick is_drug_b 3 (columns d0) = None
   ∨ pick is_level 4 (columns d0) = None)
  ∨ (∃ c1, pick is_drug_a 1 (columns d0) = Some c1
           ∧ is_object_dtype d0 c1 = false)
  ∨ (∃ c2, pick is_drug_b 3 (columns d0) = Some c2
           ∧ is_object_dtype d0 c2 = false) →
  ∃ msg, new_checker read_csv fp
         = inl (Exception ("Error loading data: " +:+ msg)).
Proof.
  intros Hr Hbad.
  assert (∀ p i c M, pick p i (columns d0) = Some c →
            first_or_column (List.filter p (columns d0)) d0 i M = (inr c, M))
    as Hfirst.
  { intros p i c M. unfold pick, first_or_column, columns_at, lift, ret.
    destruct (List.filter p (columns d0)); [|congruence]. by intros ->. }
  assert (∀ p i M, pick p i (columns d0) = None →
            ∃ e, first_or_column (List.filter p (columns d0)) d0 i M = (inl e, M)
                 ∧ ∀ m, e ≠ FileNotFoundError m)
    as Hnone.
  { intros p i M. unfold pick, first_or_column, columns_at, lift, ret.
    destruct (List.filter p (columns d0)); [|done]. intros ->.
    by eexists. }
  unfold new_checker, __init__, _load_data.
  cbv [bind ret raise lift get modify try_except set_df set_drug1_col
       set_drug2_col set_level_col self_df_col self_df self_col
       df drug1_col drug2_col level_col filepath].
  rewrite Hr.
  destruct (pick is_drug_a 1 (columns d0)) as [c1|] eqn:Hp1.
  2:{ destruct (Hnone _ _ (mkChecker (Some d0) fp None None None) Hp1)
        as (e & -> & He).
      destruct e; try (eexists; reflexivity). by destruct (He msg). }
  rewrite (Hfirst _ _ _ _ Hp1).
  destruct (pick is_drug_b 3 (columns d0)) as [c2|] eqn:Hp2.
  2:{ destruct (Hnone _ _ (mkChecker (Some d0) fp (Some c1) None None) Hp2)
        as (e & -> & He).
      destruct e; try (eexists; reflexivity). by destruct (He msg). }
  rewrite (Hfirst _ _ _ _ Hp2).
  destruct (pick is_level 4 (columns d0)) as [c3|] eqn:Hp3.
  2:{ destruct (Hnone _ _ (mkChecker (Some d0) fp (Some c1) (Some c2) None) Hp3)
        as (e & -> & He).
      destruct e; try (eexists; reflexivity). by destruct (He msg). }
  rewrite (Hfirst _ _ _ _ Hp3).
  pose proof (pick_elem_of _ _ _ _ Hp1) as Hc1.
  pose proof (pick_elem_of _ _ _ _ Hp2) as Hc2.
  unfold df_getitem at 1. rewrite bool_decide_eq_true_2 by done.
  destruct (is_object_dtype d0 c1) eqn:Hobj1.
  2:{ cbv [str_lower str_strip str_accessor_error]. eexists; reflexivity. }
  cbv [str_lower str_strip].
  rewrite df_setitem_norm by done.
  unfold df_getitem. rewrite bool_decide_eq_true_2 by done.
  rewrite is_object_norm_col.
  destruct (is_object_dtype d0 c2) eqn:Hobj2.
  2:{ cbv [str_lower str_strip str_accessor_error]. eexists; reflexivity. }
  exfalso.
  destruct Hbad as [[?|[?|?]]|[(? & ? & ?)|(? & ? & ?)]]; congruence.
Qed.

Lemma new_checker_inv_dtype fp self :
  new_checker read_csv fp = inr self →
  ∃ d0 c1 c2 c3,
    read_csv fp = inr d0
    ∧ pick is_drug_a 1 (columns d0) = Some c1
    ∧ pick is_drug_b 3 (columns d0) = Some c2
    ∧ pick is_level 4 (columns d0) = Some c3
    ∧ is_object_dtype d0 c1 = true
    ∧ is_object_dtype d0 c2 = true
    ∧ self = mkChecker (Some (norm_col c2 (norm_col c1 d0))) fp
                       (Some c1) (Some c2) (Some c3).
Proof.
  destruct (read_csv fp) as [e|d0] eqn:Hr.
  { unfold new_checker, __init__, _load_data.
    cbv [bind ret raise lift get modify try_except filepath].
    rewrite Hr. by destruct e. }
  intros Hnew.
  destruct (pick is_drug_a 1 (columns d0)) as [c1|] eqn:Hp1;
  [destruct (pick is_drug_b 3 (columns d0)) as [c2|] eqn:Hp2;
   [destruct (pick is_level 4 (columns d0)) as [c3|] eqn:Hp3;
    [destruct (is_object_dtype d0 c1) eqn:Hobj1;
     [destruct (is_object_dtype d0 c2) eqn:Hobj2|]|]|]|].
  { rewrite (new_checker_ok fp d0 c1 c2 c3) in Hnew by done.
    injection Hnew as <-. by exists d0, c1, c2, c3. }
  all: destruct (new_checker_load_error fp d0 Hr) as [msg Hmsg];
    [|congruence].
  - right; right. by exists c2.
  - right; left. by exists c1.
  - left. by repeat right.
  - left. right. by left.
  - left. by left.
Qed.

Lemma new_checker_inv fp self :
  new_checker read_csv fp = inr self →
  ∃ d0 c1 c2 c3,
    read_csv fp = inr d0
    ∧ pick is_drug_a 1 (columns d0) = Some c1
    ∧ pick is_drug_b 3 (columns d0) = Some c2
    ∧ pick is_level 4 (columns d0) = Some c3
    ∧ self = mkChecker (Some (norm_col c2 (norm_col c1 d0))) fp
                       (Some c1) (Some c2) (Some c3).
Proof.
  intros (d0 & c1 & c2 & c3 & ? & ? & ? & ? & _ & _ & ?)%new_checker_inv_dtype.
  by exists d0, c1, c2, c3.
Qed.

Lemma new_checker_loaded fp self :
  new_checker read_csv fp = inr self → loaded self.
Proof.
  intros (d0 & c1 & c2 & c3 & _ & H1 & H2 & H3 & ->)%new_checker_inv.
  exists (norm_col c2 (norm_col c1 d0)), c1, c2, c3. cbn.
  repeat split; eauto using pick_elem_of.
Qed.

End LoadProps.

(** * The claims *)

(** ** Input validation *)

(** C2. [_validate_drug_input] classifies every argument by its trimmed
    name: empty (this covers the empty string, a blank string and [None])
    is invalid with the "empty" message; non-empty and made only of digits,
    dots, commas and whitespace is invalid with the "purely numeric"
    message; anything else is valid. The seven names of the specification
    fall on the sides it says. *)
Theorem validate_drug_input_classifies :
  (∀ drug_name : py_arg,
     let trimmed := from_option strip EmptyString drug_name in
     _validate_drug_input drug_name =
       if bool_decide (trimmed = EmptyString) then (false, Some msg_empty)
       else if str_all Re.numeric_class trimmed then (false, Some msg_numeric)
       else (true, None))
  ∧ _validate_drug_input (Some "") = (false, Some msg_empty)
  ∧ _validate_drug_input (Some "   ") = (false, Some msg_empty)
  ∧ _validate_drug_input None = (false, Some msg_empty)
  ∧ _validate_drug_input (Some "123") = (false, Some msg_numeric)
  ∧ _validate_drug_input (Some "1, 2.5") = (false, Some msg_numeric)
  ∧ _validate_drug_input (Some "Aspirin") = (true, None)
  ∧ _validate_drug_input (Some "5-FU") = (true, None)
  ∧ _validate_drug_input (Some "Drug2") = (true, None).
Proof.
  split; [|by repeat split].
  intros [name|]; [apply validate_some|done].
Qed.

(** ** The queries as functions of the table *)

(** C9. Neither query changes the instance: whatever the instance and the
    arguments, and whether the query returns or raises, the frame and the
    three column roles it leaves behind are the ones it found. *)
Theorem queries_do_not_mutate (self : DrugInteractionChecker)
    (drug1 drug2 drug_name : py_arg) :
  (check_interaction drug1 drug2 self).2 = self
  ∧ (get_all_interactions_for_drug drug_name self).2 = self.
Proof.
  split; [apply read_only_check_interaction|apply read_only_get_all].
Qed.

Section Queries.

Variable read_csv : string → exn + DataFrame.
Variable csv_filepath : string.
Variable self : DrugInteractionChecker.
Hypothesis constructed : new_checker read_csv csv_filepath = inr self.

Lemma constructed_loaded : loaded self.
Proof. exact (new_checker_loaded _ _ _ constructed). Qed.

#[local] Hint Resolve constructed_loaded : core.

(** C1. On a constructed instance, for two valid names that differ after
    normalisation, [check_interaction] returns "found" with the records
    of the rows that match the pair in either order, in the order of the
    table, when there is such a row, and "not_found" with no data when
    there is none. *)
Theorem check_interaction_pair_match (n1 n2 : string) :
  valid (Some n1) → valid (Some n2) → normalize n1 ≠ normalize n2 →
  let hits :=
    filter (pair_match self (normalize n1) (normalize n2)) (table self) in
  ∃ r, check_interaction (Some n1) (Some n2) self = (inr r, self)
       ∧ (status r = "found"
          ↔ ∃ row, row ∈ table self
                   ∧ pair_match self (normalize n1) (normalize n2) row)
       ∧ (hits ≠ [] →
          status r = "found" ∧ data r = Some (record_of self <$> hits))
       ∧ (hits = [] → status r = "not_found" ∧ data r = None).
Proof.
  intros Hv1 Hv2 Hne hits.
  pose proof (check_interaction_search self n1 n2 constructed_loaded
                Hv1 Hv2 Hne) as Hrun.
  cbv zeta in Hrun. fold hits in Hrun.
  destruct (decide (hits = [])) as [Hnil|Hcons].
  - rewrite bool_decide_eq_true_2 in Hrun by done.
    eexists. split; [exact Hrun|]. cbn.
    split; [split; [done|]|split; [done|by intros _]].
    intros (row & Hrow & Hm).
    assert (row ∈ hits) as Hin by (by apply list_elem_of_filter).
    rewrite Hnil in Hin. by apply elem_of_nil in Hin.
  - rewrite bool_decide_eq_false_2 in Hrun by done.
    eexists. split; [exact Hrun|]. cbn.
    split; [split; [intros _|done]|split; [by intros _|done]].
    destruct hits as [|row hits'] eqn:Hh; [done|].
    exists row.
    assert (row ∈ filter (pair_match self (normalize n1) (normalize n2))
                         (table self)) as Hin
      by (fold hits; rewrite Hh; apply list_elem_of_here).
    apply list_elem_of_filter in Hin. tauto.
Qed.

(** C3. On a constructed instance, for two valid names,
    [check_interaction] returns the same-drug error exactly when the
    names are equal after normalisation; a valid name checked against
    itself always gets it. *)
Theorem check_interaction_same_drug (n1 n2 : string) :
  valid (Some n1) → valid (Some n2) →
  (∃ r, check_interaction (Some n1) (Some n2) self = (inr r, self)
        ∧ (r = same_drug_error ↔ normalize n1 = normalize n2)
        ∧ (status r = "error" ↔ normalize n1 = normalize n2))
  ∧ check_interaction (Some n1) (Some n1) self = (inr same_drug_error, self).
Proof.
  intros Hv1 Hv2. split; [|by apply check_interaction_same].
  destruct (decide (normalize n1 = normalize n2)) as [Heq|Hne].
  - exists same_drug_error. by rewrite check_interaction_same.
  - eexists. split; [by apply check_interaction_search; auto|].
    cbv zeta. case_bool_decide; cbn; split; split; done.
Qed.

(** C6. On a constructed instance, for any two arguments,
    [check_interaction] on them and on them swapped both return, with
    the same status and the same data. *)
Theorem check_interaction_symmetric (a b : py_arg) :
  ∃ r1 r2,
    check_interaction a b self = (inr r1, self)
    ∧ check_interaction b a self = (inr r2, self)
    ∧ status r1 = status r2 ∧ data r1 = data r2.
Proof.
  destruct (decide (valid a)) as [Hva|Hva], (decide (valid b)) as [Hvb|Hvb].
  - destruct (valid_inv a Hva) as (n1 & -> & _).
    destruct (valid_inv b Hvb) as (n2 & -> & _).
    destruct (decide (normalize n1 = normalize n2)) as [Heq|Hne].
    + exists same_drug_error, same_drug_error.
      by rewrite !check_interaction_same.
    + do 2 eexists.
      split; [by apply check_interaction_search; auto|].
      split; [by apply check_interaction_search; auto|].
      cbn zeta.
      rewrite (list_filter_iff (pair_match self (normalize n2) (normalize n1))
                               (pair_match self (normalize n1) (normalize n2)))
        by (intros row; unfold pair_match; tauto).
      by case_bool_decide.
  - destruct (invalid_inv b Hvb) as (msg & Hmsg & _).
    do 2 eexists.
    split; [by apply check_interaction_invalid2|].
    split; [by apply check_interaction_invalid1|]. done.
  - destruct (invalid_inv a Hva) as (msg & Hmsg & _).
    do 2 eexists.
    split; [by apply check_interaction_invalid1|].
    split; [by apply check_interaction_invalid2|]. done.
  - destruct (invalid_inv a Hva) as (msga & Hmsga & _).
    destruct (invalid_inv b Hvb) as (msgb & Hmsgb & _).
    do 2 eexists.
    split; [by apply check_interaction_invalid1|].
    split; [by apply check_interaction_invalid1|]. done.
Qed.

(** C4. On a constructed instance, [get_all_interactions_for_drug] on a
    valid name returns "found" with the records of the rows that carry
    the normalised name in either drug column, in the order of the table,
    or "not_found" when there is none; on an invalid argument it returns
    "invalid_input" with the message of the validation as it is. *)
Theorem get_all_interactions_listing (drug_name : py_arg) :
  ∃ r, get_all_interactions_for_drug drug_name self = (inr r, self)
       ∧ (∀ name, drug_name = Some name → valid drug_name →
            let hits := filter (mentions self (normalize name)) (table self) in
            (status r = "found"
             ↔ ∃ row, row ∈ table self ∧ mentions self (normalize name) row)
            ∧ (hits ≠ [] →
               status r = "found" ∧ data r = Some (record_of self <$> hits))
            ∧ (hits = [] → status r = "not_found" ∧ data r = None))
       ∧ (¬ valid drug_name →
            status r = "invalid_input" ∧ data r = None
            ∧ Some (message r) = (_validate_drug_input drug_name).2
            ∧ (message r = msg_empty ∨ message r = msg_numeric)).
Proof.
  destruct (decide (valid drug_name)) as [Hv|Hv].
  - destruct (valid_inv _ Hv) as (name & -> & _).
    pose proof (get_all_search self name constructed_loaded Hv) as Hrun.
    cbv zeta in Hrun.
    set (hits := filter (mentions self (normalize name)) (table self)) in *.
    destruct (decide (hits = [])) as [Hnil|Hcons].
    + rewrite bool_decide_eq_true_2 in Hrun by done.
      eexists. split; [exact Hrun|]. split; [|done].
      intros ? [= <-] _. fold hits. cbn.
      split; [split; [done|]|split; [done|by intros _]].
      intros (row & Hrow & Hm).
      assert (row ∈ hits) as Hin by (by apply list_elem_of_filter).
      rewrite Hnil in Hin. by apply elem_of_nil in Hin.
    + rewrite bool_decide_eq_false_2 in Hrun by done.
      eexists. split; [exact Hrun|]. split; [|done].
      intros ? [= <-] _. fold hits. cbn.
      split; [split; [intros _|done]|split; [by intros _|done]].
      destruct hits as [|row hits'] eqn:Hh; [done|].
      exists row.
      assert (row ∈ filter (mentions self (normalize name)) (table self))
        as Hin by (fold hits; rewrite Hh; apply list_elem_of_here).
      apply list_elem_of_filter in Hin. tauto.
  - destruct (invalid_inv _ Hv) as (msg & Hmsg & Hcases).
    eexists. split; [by apply get_all_invalid|]. split; [done|].
    intros _. cbn. by rewrite Hmsg.
Qed.

(** C8. On a constructed instance neither query raises, whatever the
    arguments: each returns a result whose status is one of the tags of
    its conditions, and only a "found" result carries data. *)
Theorem queries_never_raise (drug1 drug2 drug_name : py_arg) :
  (∃ r, check_interaction drug1 drug2 self = (inr r, self)
        ∧ status r ∈ ["invalid_input"; "error"; "found"; "not_found"]
        ∧ (status r = "found" ↔ is_Some (data r)))
  ∧ (∃ r, get_all_interactions_for_drug drug_name self = (inr r, self)
          ∧ status r ∈ ["invalid_input"; "found"; "not_found"]
          ∧ (status r = "found" ↔ is_Some (data r))).
Proof.
  assert (∀ x : list (gmap string string), is_Some (Some x)) as Hsome
    by (by eexists).
  assert (¬ is_Some (@None (list (gmap string string)))) as Hnone
    by (by intros [? ?]).
  split.
  - destruct (decide (valid drug1)) as [Hv1|Hv1];
      [destruct (decide (valid drug2)) as [Hv2|Hv2]|].
    + destruct (valid_inv _ Hv1) as (n1 & -> & _).
      destruct (valid_inv _ Hv2) as (n2 & -> & _).
      destruct (decide (normalize n1 = normalize n2)) as [Heq|Hne].
      * exists same_drug_error.
        rewrite check_interaction_same by done. cbn.
        split; [done|]. split; [set_solver|]. split; [done|].
        by intros ?%Hnone.
      * eexists. split; [by apply check_interaction_search; auto|].
        cbv zeta. case_bool_decide; cbn.
        -- split; [set_solver|]. split; [done|]. by intros ?%Hnone.
        -- split; [set_solver|]. split; [by intros _|done].
    + destruct (invalid_inv _ Hv2) as (msg & Hmsg & _).
      eexists. split; [by apply check_interaction_invalid2|]. cbn.
      split; [set_solver|]. split; [done|]. by intros ?%Hnone.
    + destruct (invalid_inv _ Hv1) as (msg & Hmsg & _).
      eexists. split; [by apply check_interaction_invalid1|]. cbn.
      split; [set_solver|]. split; [done|]. by intros ?%Hnone.
  - destruct (decide (valid drug_name)) as [Hv|Hv].
    + destruct (valid_inv _ Hv) as (name & -> & _).
      eexists. split; [by apply get_all_search; auto|].
      cbv zeta. case_bool_decide; cbn.
      * split; [set_solver|]. split; [done|]. by intros ?%Hnone.
      * split; [set_solver|]. split; [by intros _|done].
    + destruct (invalid_inv _ Hv) as (msg & Hmsg & _).
      eexists. split; [by apply get_all_invalid|]. cbn.
      split; [set_solver|]. split; [done|]. by intros ?%Hnone.
Qed.

End Queries.

(** ** Column roles *)

Lemma is_drug_a_spec h :
  is_drug_a h = true ↔ substring "drug" (lower h) ∧ substring "a" (lower h).
Proof. unfold is_drug_a. by rewrite andb_true_iff, !str_in_spec. Qed.

Lemma is_drug_b_spec h :
  is_drug_b h = true ↔ substring "drug" (lower h) ∧ substring "b" (lower h).
Proof. unfold is_drug_b. by rewrite andb_true_iff, !str_in_spec. Qed.

Lemma is_level_spec h :
  is_level h = true
  ↔ substring "level" (lower h) ∨ substring "severity" (lower h).
Proof. unfold is_level. by rewrite orb_true_iff, !str_in_spec. Qed.

(** The index a role resolves to is the least one whose header passes the
    test, or the fallback when no header does. *)
Lemma role_index_first p fallback headers :
  let i := role_index p fallback headers in
  ((∃ h, headers !! i = Some h ∧ p h = true)
   ∨ (i = fallback ∧ ∀ h, h ∈ headers → p h = false))
  ∧ (∀ k h, (k < i)%nat → headers !! k = Some h → p h = false).
Proof.
  unfold role_index.
  destruct (first_index p headers) as [j|] eqn:Hj; cbn.
  - apply first_index_Some in Hj as (x & Hx & Hp & _ & Hlt).
    split; [left; by exists x|exact Hlt].
  - assert (∀ h, h ∈ headers → p h = false) as Hall.
    { apply first_index_None in Hj. intros h Hh.
      destruct (p h) eqn:Hp; [|done].
      assert (In h (List.filter p headers)) as Hin
        by (apply List.filter_In; split; [by apply list_elem_of_In|done]).
      by rewrite Hj in Hin. }
    split; [by right|].
    intros k h _ Hk. by apply Hall, list_elem_of_lookup_2 with k.
Qed.

Lemma role_index_fallback p fallback headers :
  (∀ h, h ∈ headers → p h = false) → role_index p fallback headers = fallback.
Proof.
  intros Hall. unfold role_index.
  destruct (first_index p headers) as [j|] eqn:Hj; [|done].
  apply first_index_Some in Hj as (x & Hx & Hp & _).
  apply list_elem_of_lookup_2, Hall in Hx. congruence.
Qed.

(** C5. Column-role inference is a function of the header list: each role
    goes to the first header that passes its test (the lower-cased header
    contains "drug" and "a"; "drug" and "b"; "level" or "severity"), else
    to position 1, 3 or 4. The constructor takes the roles from the
    headers at these positions; it raises when one of them is past the
    last header, and otherwise only when a column taken for a drug role is
    not of object dtype. The headers of the specification's example, and
    any headers that pass no test, resolve to positions 1, 3 and 4. *)
Theorem column_role_inference :
  (∀ h, is_drug_a h = true
        ↔ substring "drug" (lower h) ∧ substring "a" (lower h))
  ∧ (∀ h, is_drug_b h = true
          ↔ substring "drug" (lower h) ∧ substring "b" (lower h))
  ∧ (∀ h, is_level h = true
          ↔ substring "level" (lower h) ∨ substring "severity" (lower h))
  ∧ (∀ p fallback headers,
       let i := role_index p fallback headers in
       ((∃ h, headers !! i = Some h ∧ p h = true)
        ∨ (i = fallback ∧ ∀ h, h ∈ headers → p h = false))
       ∧ (∀ k h, (k < i)%nat → headers !! k = Some h → p h = false))
  ∧ (∀ (read_csv : string → exn + DataFrame) csv_filepath d0,
       read_csv csv_filepath = inr d0 →
       let headers := columns d0 in
       match new_checker read_csv csv_filepath with
       | inr self =>
           drug1_col self = headers !! (infer_roles headers).1.1
           ∧ drug2_col self = headers !! (infer_roles headers).1.2
           ∧ level_col self = headers !! (infer_roles headers).2
           ∧ is_Some (drug1_col self) ∧ is_Some (drug2_col self)
           ∧ is_Some (level_col self)
       | inl _ =>
           ¬ (((infer_roles headers).1.1 < length headers
               ∧ (infer_roles headers).1.2 < length headers
               ∧ (infer_roles headers).2 < length headers)%nat
              ∧ ∀ c, headers !! (infer_roles headers).1.1 = Some c
                     ∨ headers !! (infer_roles headers).1.2 = Some c →
                     is_object_dtype d0 c = true)
       end)
  ∧ infer_roles ["id"; "DrugA_name"; "other"; "DrugB_name"; "Severity_Level"]
    = (1, 3, 4)%nat
  ∧ (∀ headers,
       (∀ h, h ∈ headers →
             is_drug_a h = false ∧ is_drug_b h = false ∧ is_level h = false) →
       infer_roles headers = (1, 3, 4)%nat).
Proof.
  split; [exact is_drug_a_spec|]. split; [exact is_drug_b_spec|].
  split; [exact is_level_spec|]. split; [exact role_index_first|].
  split; [|split; [reflexivity|]].
  - intros read_csv fp d0 Hr headers. unfold infer_roles. cbn [fst snd].
    rewrite <- !pick_role_index. fold headers.
    destruct (new_checker read_csv fp) as [e|self] eqn:Hnew.
    + intros ((Ha & Hb & Hl) & Hobj).
      rewrite <- lookup_lt_is_Some, <- pick_role_index in Ha, Hb, Hl.
      destruct Ha as [c1 Ha], Hb as [c2 Hb], Hl as [c3 Hl].
      assert (is_object_dtype d0 c1 = true) by (apply Hobj; auto).
      assert (is_object_dtype d0 c2 = true) by (apply Hobj; auto).
      by rewrite (new_checker_ok read_csv fp d0 c1 c2 c3) in Hnew.
    + apply new_checker_inv in Hnew
        as (d0' & c1 & c2 & c3 & Hr' & H1 & H2 & H3 & ->).
      assert (d0' = d0) as -> by congruence. cbn. fold headers in H1, H2, H3.
      rewrite H1, H2, H3. by repeat split; try eexists.
  - intros headers Hall. unfold infer_roles.
    rewrite !role_index_fallback; [done|intros h Hh; by apply Hall..].
Qed.

(** C10. The drug-A test asks only that the lower-cased header contain
    "drug" and an "a" somewhere, and the drug-B test likewise with "b".
    So "drug_b_name" passes the drug-A test and, standing first, is taken
    as the drug-A column; and one header can be taken for both roles. *)
Theorem column_tests_are_loose :
  (∀ h, is_drug_a h = true
        ↔ substring "drug" (lower h) ∧ substring "a" (lower h))
  ∧ (∀ h, is_drug_b h = true
          ↔ substring "drug" (lower h) ∧ substring "b" (lower h))
  ∧ is_drug_a "drug_b_name" = true
  ∧ (∃ self,
       new_checker (λ _, inr Examples.b_first) "drug_interaction.csv" = inr self
       ∧ columns Examples.b_first = ["drug_b_name"; "drug_a_name"; "level"]
       ∧ drug1_col self = Some "drug_b_name")
  ∧ (∃ self,
       new_checker (λ _, inr Examples.one_header) "drug_interaction.csv"
         = inr self
       ∧ drug1_col self = Some "drug_a_b" ∧ drug2_col self = Some "drug_a_b").
Proof.
  split; [exact is_drug_a_spec|]. split; [exact is_drug_b_spec|].
  split; [reflexivity|]. split.
  - eexists. split; [vm_compute; reflexivity|]. by split.
  - eexists. split; [vm_compute; reflexivity|]. by split.
Qed.

(** ** Normalisation at load time *)

Lemma norm_row_drug1 c1 c2 (row : gmap string string) :
  alter normalize c2 (alter normalize c1 row) !! c1 = normalize <$> row !! c1.
Proof.
  destruct (decide (c2 = c1)) as [->|Hne].
  - rewrite !lookup_alter_eq. destruct (row !! c1); [|done].
    cbn. by rewrite normalize_normalize.
  - by rewrite lookup_alter_ne, lookup_alter_eq.
Qed.

Lemma norm_row_drug2 c1 c2 (row : gmap string string) :
  alter normalize c2 (alter normalize c1 row) !! c2 = normalize <$> row !! c2.
Proof.
  rewrite lookup_alter_eq.
  destruct (decide (c1 = c2)) as [->|Hne].
  - rewrite lookup_alter_eq. destruct (row !! c2); [|done].
    cbn. by rewrite normalize_normalize.
  - by rewrite lookup_alter_ne.
Qed.

Lemma norm_row_other c1 c2 c3 (row : gmap string string) :
  c3 ≠ c1 → c3 ≠ c2 →
  alter normalize c2 (alter normalize c1 row) !! c3 = row !! c3.
Proof. intros. by rewrite !lookup_alter_ne. Qed.

(** C7, as stated, fails: when the header taken for the level is also the
    one taken for a drug column, the level is put in lower case with it. *)
Lemma level_lowered_with_shared_column :
  ¬ level_retained Examples.read_shared_level "drug_interaction.csv".
Proof.
  intros H.
  specialize (H Examples.shared_level_checker Examples.shared_level).
  assert (new_checker Examples.read_shared_level "drug_interaction.csv"
          = inr Examples.shared_level_checker) as Hnew
    by (vm_compute; reflexivity).
  specialize (H Hnew eq_refl). vm_compute in H. discriminate H.
Qed.

(** C7, amended. After construction every name in the two drug columns is
    the normalisation of the name the source held there: it has no capital
    and no blank at either end, and normalising it again changes nothing.
    The level column holds what the source held whenever its header is
    neither of the two drug headers. *)
Theorem loaded_names_normalized (read_csv : string → exn + DataFrame)
    (csv_filepath : string) (self : DrugInteractionChecker) (d0 : DataFrame) :
  new_checker read_csv csv_filepath = inr self →
  read_csv csv_filepath = inr d0 →
  (∀ row v, row ∈ table self →
            drugA self row = Some v ∨ drugB self row = Some v →
            is_lowercase v = true ∧ is_trimmed v = true ∧ normalize v = v)
  ∧ drugA self <$> table self
    = (λ row, normalize <$> drugA self row) <$> rows d0
  ∧ drugB self <$> table self
    = (λ row, normalize <$> drugB self row) <$> rows d0
  ∧ (∀ v, normalize (normalize v) = normalize v)
  ∧ (level_col self ≠ drug1_col self → level_col self ≠ drug2_col self →
     level self <$> table self = level self <$> rows d0).
Proof.
  intros (d0' & c1 & c2 & c3 & Hr' & H1 & H2 & H3 & ->)%new_checker_inv Hr.
  assert (d0' = d0) as -> by congruence.
  unfold table, drugA, drugB, level. cbn.
  split; [|split; [|split; [|split]]].
  - intros row v
      (? & -> & (row0 & -> & _)%list_elem_of_fmap)%list_elem_of_fmap.
    rewrite norm_row_drug1, norm_row_drug2.
    intros [Hv|Hv];
      apply fmap_Some in Hv as (v0 & _ & ->);
      by rewrite normalize_is_lowercase, normalize_is_trimmed,
                 normalize_normalize.
  - rewrite <- !list_fmap_compose. apply list_fmap_ext.
    intros i row _. cbn. apply norm_row_drug1.
  - rewrite <- !list_fmap_compose. apply list_fmap_ext.
    intros i row _. cbn. apply norm_row_drug2.
  - apply normalize_normalize.
  - intros Hc1 Hc2. rewrite <- !list_fmap_compose. apply list_fmap_ext.
    intros i row _. cbn. apply norm_row_other; congruence.
Qed.

(** ** The claims at work on the example table *)

Lemma example_constructed :
  new_checker Examples.read_interactions "drug_interaction.csv"
  = inr Examples.checker.
Proof. vm_compute. reflexivity. Defined.

(** The pair of the specification's example is found. *)
Lemma check_interaction_pair_match_witness :
  new_checker Examples.read_interactions "drug_interaction.csv"
    = inr Examples.checker
  ∧ valid (Some "warfarin") ∧ valid (Some "ASPIRIN ")
  ∧ normalize "warfarin" ≠ normalize "ASPIRIN "
  ∧ ∃ r, check_interaction (Some "warfarin") (Some "ASPIRIN ") Examples.checker
           = (inr r, Examples.checker)
         ∧ status r = "found"
         ∧ data r = Some (record_of Examples.checker
                            <$> filter (pair_match Examples.checker
                                          "warfarin" "aspirin")
                                       (table Examples.checker)).
Proof.
  assert (normalize "warfarin" ≠ normalize "ASPIRIN ") as Hne
    by (vm_compute; discriminate).
  split; [exact example_constructed|].
  split; [reflexivity|]. split; [reflexivity|]. split; [exact Hne|].
  destruct (check_interaction_pair_match
              Examples.read_interactions "drug_interaction.csv" Examples.checker
              example_constructed "warfarin" "ASPIRIN "
              eq_refl eq_refl Hne) as (r & Hrun & _ & Hfound & _).
  exists r. split; [exact Hrun|]. apply Hfound.
  vm_compute. discriminate.
Defined.

(** A name against itself, in another spelling. *)
Lemma check_interaction_same_drug_witness :
  new_checker Examples.read_interactions "drug_interaction.csv"
    = inr Examples.checker
  ∧ valid (Some "Aspirin") ∧ valid (Some " aspirin ")
  ∧ check_interaction (Some "Aspirin") (Some "Aspirin") Examples.checker
    = (inr same_drug_error, Examples.checker).
Proof.
  split; [exact example_constructed|].
  split; [reflexivity|]. split; [reflexivity|].
  exact (proj2 (check_interaction_same_drug
                  Examples.read_interactions "drug_interaction.csv"
                  Examples.checker example_constructed
                  "Aspirin" " aspirin " eq_refl eq_refl)).
Defined.

(** A blank first argument against a valid second one, both ways round. *)
Lemma check_interaction_symmetric_witness :
  new_checker Examples.read_interactions "drug_interaction.csv"
    = inr Examples.checker
  ∧ ∃ r1 r2,
      check_interaction (Some "  ") (Some "Aspirin") Examples.checker
        = (inr r1, Examples.checker)
      ∧ check_interaction (Some "Aspirin") (Some "  ") Examples.checker
        = (inr r2, Examples.checker)
      ∧ status r1 = status r2 ∧ data r1 = data r2.
Proof.
  split; [exact example_constructed|].
  exact (check_interaction_symmetric
           Examples.read_interactions "drug_interaction.csv"
           Examples.checker example_constructed (Some "  ") (Some "Aspirin")).
Defined.

(** Every row that names aspirin, in the order of the table. *)
Lemma get_all_interactions_listing_witness :
  new_checker Examples.read_interactions "drug_interaction.csv"
    = inr Examples.checker
  ∧ ∃ r, get_all_interactions_for_drug (Some "aspirin") Examples.checker
           = (inr r, Examples.checker)
         ∧ status r = "found"
         ∧ data r = Some (record_of Examples.checker
                            <$> table Examples.checker).
Proof.
  split; [exact example_constructed|].
  destruct (get_all_interactions_listing
              Examples.read_interactions "drug_interaction.csv" Examples.checker
              example_constructed (Some "aspirin"))
    as (r & Hrun & Hvalid & _).
  exists r. split; [exact Hrun|].
  destruct (Hvalid "aspirin" eq_refl eq_refl) as (_ & Hfound & _).
  apply Hfound. vm_compute. discriminate.
Defined.

(** An absent argument is answered, not raised on. *)
Lemma queries_never_raise_witness :
  new_checker Examples.read_interactions "drug_interaction.csv"
    = inr Examples.checker
  ∧ (∃ r, check_interaction None (Some "123") Examples.checker
            = (inr r, Examples.checker)
          ∧ status r ∈ ["invalid_input"; "error"; "found"; "not_found"]
          ∧ (status r = "found" ↔ is_Some (data r)))
  ∧ (∃ r, get_all_interactions_for_drug None Examples.checker
            = (inr r, Examples.checker)
          ∧ status r ∈ ["invalid_input"; "found"; "not_found"]
          ∧ (status r = "found" ↔ is_Some (data r))).
Proof.
  split; [exact example_constructed|].
  exact (queries_never_raise
           Examples.read_interactions "drug_interaction.csv"
           Examples.checker example_constructed None (Some "123") None).
Defined.

(** The names of the example table after construction. *)
Lemma loaded_names_normalized_witness :
  new_checker Examples.read_interactions "drug_interaction.csv"
    = inr Examples.checker
  ∧ Examples.read_interactions "drug_interaction.csv"
    = inr Examples.interactions
  ∧ drugA Examples.checker <$> table Examples.checker
    = (λ row, normalize <$> drugA Examples.checker row)
        <$> rows Examples.interactions
  ∧ level Examples.checker <$> table Examples.checker
    = level Examples.checker <$> rows Examples.interactions.
Proof.
  split; [exact example_constructed|]. split; [reflexivity|].
  destruct (loaded_names_normalized
              Examples.read_interactions "drug_interaction.csv"
              Examples.checker Examples.interactions
              example_constructed eq_refl)
    as (_ & HA & _ & _ & Hlevel).
  split; [exact HA|]. apply Hlevel; vm_compute; discriminate.
Defined.

(** A pair the table does not list, and what the listing for one name
    reports. *)
Example pair_not_listed :
  check_interaction (Some "Warfarin") (Some "Ibuprofen") Examples.checker
  = (inr {| status := "not_found";
            message := "No significant interaction found";
            data := None |},
     Examples.checker).
Proof. vm_compute. reflexivity. Qed.

Example listing_message :
  ∃ r, get_all_interactions_for_drug (Some "Aspirin") Examples.checker
         = (inr r, Examples.checker)
       ∧ message r = "Found 2 interaction(s) for Aspirin".
Proof. eexists. split; [vm_compute; reflexivity|reflexivity]. Qed.


(** * Further properties of the code *)

(** ** Names and their validation *)

Lemma lower_lstrip s : lower (lstrip s) = lstrip (lower s).
Proof.
  induction s as [|c s IH]; [done|].
  cbn. rewrite char_lower_isspace. by destruct (Char.isspace c).
Qed.

Lemma lower_rstrip s : lower (rstrip s) = rstrip (lower s).
Proof.
  induction s as [|c s IH]; [done|].
  cbn. rewrite <- IH, char_lower_isspace.
  destruct (rstrip s) as [|c' r]; [by destruct (Char.isspace c)|done].
Qed.

Lemma lower_strip s : lower (strip s) = strip (lower s).
Proof. unfold strip. by rewrite lower_rstrip, lower_lstrip. Qed.

Lemma numeric_class_lower c :
  Re.numeric_class (Char.lower c) = Re.numeric_class c.
Proof. each_char c. Qed.

Lemma str_all_numeric_lower s :
  str_all Re.numeric_class (lower s) = str_all Re.numeric_class s.
Proof.
  induction s as [|c s IH]; [done|].
  cbn. by rewrite numeric_class_lower, IH.
Qed.

Lemma lower_empty s : lower s = EmptyString ↔ s = EmptyString.
Proof. by destruct s. Qed.

Lemma validate_normalize n :
  _validate_drug_input (Some (normalize n)) = _validate_drug_input (Some n).
Proof.
  rewrite !validate_some.
  assert (strip (normalize n) = lower (strip n)) as ->
    by (unfold normalize; by rewrite strip_strip, lower_strip).
  rewrite str_all_numeric_lower.
  destruct (strip n) eqn:Hs; [done|].
  by rewrite !bool_decide_eq_false_2.
Qed.

Lemma valid_normalize n : valid (Some (normalize n)) ↔ valid (Some n).
Proof. unfold valid. by rewrite validate_normalize. Qed.

(** X1. Validation looks at a name only through its normalised form: a name
    and its normalisation get the same verdict and the same message, the
    verdict is "valid" exactly when the normalised name is non-empty and
    not made of digits, dots, commas and blanks alone, and the order of
    [lower] and [strip] does not matter. *)
Theorem validation_sees_normalised_name (n : string) :
  _validate_drug_input (Some (normalize n)) = _validate_drug_input (Some n)
  ∧ (_validate_drug_input (Some n)).1
    = negb (bool_decide (normalize n = EmptyString))
      && negb (str_all Re.numeric_class (normalize n))
  ∧ lower (strip n) = strip (lower n).
Proof.
  split; [apply validate_normalize|]. split; [|apply lower_strip].
  rewrite validate_some. unfold normalize. rewrite <- lower_strip.
  rewrite str_all_numeric_lower.
  destruct (strip n) eqn:Hs; [done|].
  rewrite !bool_decide_eq_false_2 by done. cbn [negb andb].
  by destruct (str_all _ _).
Qed.

(** ** What the constructor raises, and when *)

Section ConstructorErrors.

Variable read_csv : string → exn + DataFrame.
Variable csv_filepath : string.

Lemma new_checker_read_error e :
  read_csv csv_filepath = inl e →
  new_checker read_csv csv_filepath = inl (wrap_load_error csv_filepath e).
Proof.
  intros Hr. unfold new_checker, __init__, _load_data.
  cbv [bind ret raise lift get modify try_except filepath].
  rewrite Hr. by destruct e.
Qed.

Lemma new_checker_index_error d0 :
  read_csv csv_filepath = inr d0 →
  pick is_drug_a 1 (columns d0) = None
  ∨ pick is_drug_b 3 (columns d0) = None
  ∨ pick is_level 4 (columns d0) = None →
  ∃ msg, new_checker read_csv csv_filepath
         = inl (Exception ("Error loading data: " +:+ msg)).
Proof.
  intros Hr Hnone. apply (new_checker_load_error read_csv _ d0 Hr). by left.
Qed.


End ConstructorErrors.

Lemma pick_is_Some p i cols :
  is_Some (pick p i cols)
  ↔ (∃ h, h ∈ cols ∧ p h = true) ∨ (i < length cols)%nat.
Proof.
  unfold pick. destruct (List.filter p cols) as [|c l] eqn:Hf.
  - rewrite lookup_lt_is_Some. split; [by right|].
    intros [(h & Hh & Hp)|?]; [|done].
    assert (In h (List.filter p cols)) as Hin
      by (apply List.filter_In; split; [by apply list_elem_of_In|done]).
    by rewrite Hf in Hin.
  - split; [intros _; left|by eexists].
    assert (In c (List.filter p cols)) as Hin by (rewrite Hf; by left).
    apply List.filter_In in Hin as [Hin Hp].
    exists c. by rewrite list_elem_of_In.
Qed.


(** X3. Given a frame, the constructor succeeds exactly when every role
    has a header that passes its test or a fallback position inside the
    header list, and the columns taken for the two drug roles are of
    object dtype. So a frame of five columns or more loads exactly when
    its two drug columns are of object dtype, and a frame of no column
    never loads. *)
Theorem constructor_column_bounds (read_csv : string → exn + DataFrame)
    (csv_filepath : string) (d0 : DataFrame) :
  read_csv csv_filepath = inr d0 →
  let drug_columns_are_object :=
    ∀ c, pick is_drug_a 1 (columns d0) = Some c
         ∨ pick is_drug_b 3 (columns d0) = Some c →
         is_object_dtype d0 c = true in
  ((∃ self, new_checker read_csv csv_filepath = inr self)
   ↔ (((∃ h, h ∈ columns d0 ∧ is_drug_a h = true)
       ∨ (1 < length (columns d0))%nat)
      ∧ ((∃ h, h ∈ columns d0 ∧ is_drug_b h = true)
         ∨ (3 < length (columns d0))%nat)
      ∧ ((∃ h, h ∈ columns d0 ∧ is_level h = true)
         ∨ (4 < length (columns d0))%nat))
     ∧ drug_columns_are_object)
  ∧ ((5 ≤ length (columns d0))%nat →
     (∃ self, new_checker read_csv csv_filepath = inr self)
     ↔ drug_columns_are_object)
  ∧ (columns d0 = [] →
     ∃ msg, new_checker read_csv csv_filepath
            = inl (Exception ("Error loading data: " +:+ msg))).
Proof.
  intros Hr Hobj.
  assert ((∃ self, new_checker read_csv csv_filepath = inr self)
          ↔ (is_Some (pick is_drug_a 1 (columns d0))
             ∧ is_Some (pick is_drug_b 3 (columns d0))
             ∧ is_Some (pick is_level 4 (columns d0)))
            ∧ Hobj) as Hiff.
  { split.
    - intros [self (d0' & c1 & c2 & c3 & Hr' & H1 & H2 & H3 & Ho1 & Ho2 & _)
                     %new_checker_inv_dtype].
      assert (d0' = d0) as -> by congruence.
      split; [by rewrite H1, H2, H3|].
      intros c [Hc|Hc]; congruence.
    - intros (([c1 H1] & [c2 H2] & [c3 H3]) & Ho).
      eexists. apply (new_checker_ok read_csv _ d0 c1 c2 c3); auto. }
  rewrite !pick_is_Some in Hiff.
  split; [exact Hiff|]. split.
  - intros Hlen. rewrite Hiff. split; [tauto|].
    intros Ho. split; [|done]. repeat split; right; lia.
  - intros Hnil. apply (new_checker_index_error read_csv _ d0 Hr).
    left. unfold pick. by rewrite Hnil.
Qed.

(** ** What loading does to the frame *)

Lemma norm_row_lookup c1 c2 (row : gmap string string) k :
  alter normalize c2 (alter normalize c1 row) !! k
  = if bool_decide (k = c1 ∨ k = c2) then normalize <$> row !! k else row !! k.
Proof.
  case_bool_decide as Hk.
  - destruct Hk as [->| ->]; [apply norm_row_drug1|apply norm_row_drug2].
  - apply norm_row_other; intros ->; apply Hk; auto.
Qed.

Lemma norm_row_dom c1 c2 (row : gmap string string) :
  dom (alter normalize c2 (alter normalize c1 row)) = dom row.
Proof. apply set_eq. intros k. by rewrite !elem_of_dom, !lookup_alter_is_Some. Qed.

Lemma norm_row_twice c1 c2 (row : gmap string string) :
  alter normalize c2 (alter normalize c1
    (alter normalize c2 (alter normalize c1 row)))
  = alter normalize c2 (alter normalize c1 row).
Proof.
  apply map_eq. intros k. rewrite !norm_row_lookup.
  case_bool_decide; [|done].
  destruct (row !! k); [|done]. cbn. by rewrite normalize_normalize.
Qed.

(** X4. Loading changes nothing but the names in the two drug columns: the
    instance keeps the path it was given, the frame keeps its headers, its
    number of rows and their order, every row keeps the set of cells it
    has, and every cell outside the two drug columns holds what the source
    held. *)
Theorem load_keeps_frame (read_csv : string → exn + DataFrame)
    (csv_filepath : string) (self : DrugInteractionChecker) (d0 : DataFrame) :
  new_checker read_csv csv_filepath = inr self →
  read_csv csv_filepath = inr d0 →
  filepath self = csv_filepath
  ∧ ∃ d, df self = Some d
         ∧ columns d = columns d0
         ∧ length (rows d) = length (rows d0)
         ∧ ∀ i row0, rows d0 !! i = Some row0 →
             ∃ row, rows d !! i = Some row
                    ∧ dom row = dom row0
                    ∧ ∀ c, Some c ≠ drug1_col self → Some c ≠ drug2_col self →
                           row !! c = row0 !! c.
Proof.
  intros (d0' & c1 & c2 & c3 & Hr' & H1 & H2 & H3 & ->)%new_checker_inv Hr.
  assert (d0' = d0) as -> by congruence.
  split; [done|]. eexists. split; [done|]. cbn.
  split; [done|]. split; [by rewrite !length_fmap|].
  intros i row0 Hi. eexists. split.
  - rewrite !list_lookup_fmap, Hi. done.
  - split; [apply norm_row_dom|].
    intros c Hc1 Hc2. apply norm_row_other; congruence.
Qed.

(** X5. Loading is idempotent: building an instance from the frame that an
    instance holds, under the same path, gives that instance again, with
    the same column roles and the same rows. *)
Theorem reload_same_instance (read_csv : string → exn + DataFrame)
    (csv_filepath : string) (self : DrugInteractionChecker) (d : DataFrame) :
  new_checker read_csv csv_filepath = inr self →
  df self = Some d →
  new_checker (λ _, inr d) csv_filepath = inr self.
Proof.
  intros (d0 & c1 & c2 & c3 & Hr & H1 & H2 & H3 & Ho1 & Ho2 & ->)
           %new_checker_inv_dtype [= <-].
  rewrite (new_checker_ok _ csv_filepath (norm_col c2 (norm_col c1 d0)) c1 c2 c3)
    by (by rewrite ?is_object_norm_col).
  do 3 f_equal. unfold norm_col. cbn. f_equal.
  rewrite <- !list_fmap_compose. apply list_fmap_ext.
  intros i row _. cbn. apply norm_row_twice.
Qed.

(** ** The queries, further *)

Lemma restrict_lookup_Some cols (row : gmap string string) k v :
  restrict cols row !! k = Some v ↔ row !! k = Some v ∧ k ∈ cols.
Proof. unfold restrict. by rewrite map_lookup_filter_Some. Qed.

Lemma restrict_lookup_in cols (row : gmap string string) k :
  k ∈ cols → restrict cols row !! k = row !! k.
Proof.
  intros Hk. apply option_eq. intros v. rewrite restrict_lookup_Some. tauto.
Qed.

Lemma filter_sublist_mono {A} (P Q : A → Prop)
    `{!∀ x, Decision (P x)} `{!∀ x, Decision (Q x)} (l : list A) :
  (∀ x, P x → Q x) → filter P l `sublist_of` filter Q l.
Proof.
  intros HPQ. induction l as [|x l IH]; [constructor|].
  rewrite !filter_cons.
  destruct (decide (P x)) as [HP|HP], (decide (Q x)) as [HQ|HQ].
  - by apply sublist_skip.
  - by destruct HQ; auto.
  - by apply sublist_cons.
  - done.
Qed.

(** X6. [check_interaction] validates before it looks at the table, the
    first argument first: on every instance, one that holds no frame
    included, an invalid first argument is reported as "Drug 1" whatever
    the second is, an invalid second one as "Drug 2" only when the first
    is valid, and two valid names with one normal form get the same-drug
    error. *)
Theorem validation_comes_first (self : DrugInteractionChecker)
    (drug1 drug2 : py_arg) :
  (¬ valid drug1 →
   ∃ msg, (_validate_drug_input drug1).2 = Some msg
          ∧ check_interaction drug1 drug2 self
            = (inr (invalid_input ("Drug 1 - " +:+ msg)), self))
  ∧ (valid drug1 → ¬ valid drug2 →
     ∃ msg, (_validate_drug_input drug2).2 = Some msg
            ∧ check_interaction drug1 drug2 self
              = (inr (invalid_input ("Drug 2 - " +:+ msg)), self))
  ∧ (∀ n1 n2, drug1 = Some n1 → drug2 = Some n2 →
              valid drug1 → valid drug2 → normalize n1 = normalize n2 →
              check_interaction drug1 drug2 self = (inr same_drug_error, self)).
Proof.
  split; [|split].
  - intros (msg & Hmsg & _)%invalid_inv. exists msg.
    split; [by rewrite Hmsg|by apply check_interaction_invalid1].
  - intros Hv1 (msg & Hmsg & _)%invalid_inv. exists msg.
    split; [by rewrite Hmsg|by apply check_interaction_invalid2].
  - intros n1 n2 -> -> Hv1 Hv2 Heq. by apply check_interaction_same.
Qed.

Section QueryProps.

Variable read_csv : string → exn + DataFrame.
Variable csv_filepath : string.
Variable self : DrugInteractionChecker.
Hypothesis constructed : new_checker read_csv csv_filepath = inr self.

Lemma constructed_is_loaded : loaded self.
Proof. exact (new_checker_loaded _ _ _ constructed). Qed.

#[local] Hint Resolve constructed_is_loaded : core.

(** X7. [check_interaction] is blind to the case of its arguments and to
    the blanks around them: on a constructed instance, any two strings and
    their normal forms get results with the same status and the same
    data. *)
Theorem check_interaction_ignores_case_and_blanks (n1 n2 : string) :
  ∃ r r',
    check_interaction (Some n1) (Some n2) self = (inr r, self)
    ∧ check_interaction (Some (normalize n1)) (Some (normalize n2)) self
      = (inr r', self)
    ∧ status r = status r' ∧ data r = data r'.
Proof.
  destruct (decide (valid (Some n1))) as [Hv1|Hv1];
    [destruct (decide (valid (Some n2))) as [Hv2|Hv2]|].
  - pose proof (proj2 (valid_normalize n1) Hv1) as Hv1'.
    pose proof (proj2 (valid_normalize n2) Hv2) as Hv2'.
    destruct (decide (normalize n1 = normalize n2)) as [Heq|Hne].
    + exists same_drug_error, same_drug_error.
      rewrite !check_interaction_same; by rewrite ?normalize_normalize.
    + do 2 eexists.
      split; [by apply check_interaction_search; auto|].
      split; [apply check_interaction_search; auto;
              by rewrite !normalize_normalize|].
      cbv zeta. rewrite !normalize_normalize. by case_bool_decide.
  - pose proof (proj2 (valid_normalize n1) Hv1) as Hv1'.
    destruct (invalid_inv _ Hv2) as (msg & Hmsg & _).
    do 2 eexists.
    split; [by apply check_interaction_invalid2|].
    split; [apply check_interaction_invalid2; [done|];
            by rewrite validate_normalize|]. done.
  - destruct (invalid_inv _ Hv1) as (msg & Hmsg & _).
    do 2 eexists.
    split; [by apply check_interaction_invalid1|].
    split; [apply check_interaction_invalid1; by rewrite validate_normalize|].
    done.
Qed.

(** X8. What [check_interaction] finds, read on the source: for two valid
    names that differ after normalisation the status is "found" exactly
    when some row of the frame that was read holds, up to case and
    surrounding blanks, the two names in its two drug columns, in either
    order. *)
Theorem check_interaction_matches_source (d0 : DataFrame) (n1 n2 : string) :
  read_csv csv_filepath = inr d0 →
  valid (Some n1) → valid (Some n2) → normalize n1 ≠ normalize n2 →
  ∃ r, check_interaction (Some n1) (Some n2) self = (inr r, self)
       ∧ (status r = "found"
          ↔ ∃ row0, row0 ∈ rows d0
              ∧ ((normalize <$> drugA self row0 = Some (normalize n1)
                  ∧ normalize <$> drugB self row0 = Some (normalize n2))
                 ∨ (normalize <$> drugA self row0 = Some (normalize n2)
                    ∧ normalize <$> drugB self row0 = Some (normalize n1)))).
Proof.
  intros Hr Hv1 Hv2 Hne.
  eexists. split; [by apply check_interaction_search; auto|]. cbv zeta.
  destruct (new_checker_inv _ _ _ constructed)
    as (d0' & c1 & c2 & c3 & Hr' & H1 & H2 & H3 & ->).
  assert (d0' = d0) as -> by congruence.
  unfold pair_match, table, drugA, drugB. cbn.
  set (P := λ row : gmap string string,
         (row !! c1 = Some (normalize n1) ∧ row !! c2 = Some (normalize n2))
         ∨ (row !! c1 = Some (normalize n2) ∧ row !! c2 = Some (normalize n1))).
  assert ((∃ row0, row0 ∈ rows d0
             ∧ P (alter normalize c2 (alter normalize c1 row0)))
          ↔ filter P (alter normalize c2 <$> (alter normalize c1 <$> rows d0))
            ≠ []) as Hex.
  { rewrite <- list_fmap_compose. split.
    - intros (row0 & Hin & HP) Hnil.
      assert (alter normalize c2 (alter normalize c1 row0)
              ∈ filter P (alter normalize c2 ∘ alter normalize c1 <$> rows d0))
        as Hin'.
      { apply list_elem_of_filter. split; [done|].
        apply list_elem_of_fmap. by exists row0. }
      rewrite Hnil in Hin'. by apply elem_of_nil in Hin'.
    - intros Hne'.
      destruct (filter P _) as [|row l] eqn:Hf; [done|].
      assert (row ∈ filter P (alter normalize c2 ∘ alter normalize c1
                               <$> rows d0)) as Hin
        by (rewrite Hf; apply list_elem_of_here).
      apply list_elem_of_filter in Hin as [HP Hin].
      apply list_elem_of_fmap in Hin as (row0 & -> & Hin0).
      by exists row0. }
  unfold P in Hex at 1. setoid_rewrite norm_row_drug1 in Hex.
  setoid_rewrite norm_row_drug2 in Hex. rewrite Hex.
  fold P. case_bool_decide as Hnil; cbn.
  - split; [done|]. by intros [].
  - done.
Qed.

(** X9. The records of a "found" result: there is at least one and at
    most one per row of the table; each holds the two normalised names in
    its two drug fields, in one order or the other, and has no field
    besides the three role columns. *)
Theorem found_records_hold_the_pair (n1 n2 : string) :
  valid (Some n1) → valid (Some n2) → normalize n1 ≠ normalize n2 →
  ∃ r, check_interaction (Some n1) (Some n2) self = (inr r, self)
       ∧ ∀ recs, data r = Some recs →
           recs ≠ []
           ∧ (length recs ≤ length (table self))%nat
           ∧ ∀ rec, rec ∈ recs →
               pair_match self (normalize n1) (normalize n2) rec
               ∧ ∀ k, is_Some (rec !! k) →
                      Some k ∈ [drug1_col self; drug2_col self; level_col self].
Proof.
  intros Hv1 Hv2 Hne.
  eexists. split; [by apply check_interaction_search; auto|]. cbv zeta.
  case_bool_decide as Hnil; cbn; [done|].
  intros recs [= <-]. split; [by destruct (filter _ _)|].
  split; [rewrite length_fmap; apply length_filter|].
  intros rec (row & -> & [Hpm _]%list_elem_of_filter)%list_elem_of_fmap.
  destruct constructed_is_loaded
    as (d & c1 & c2 & c3 & Hd & H1 & H2 & H3 & _).
  unfold pair_match, drugA, drugB, record_of in *.
  rewrite H1, H2, H3 in *. cbn in *. split.
  - rewrite !restrict_lookup_in by (rewrite !elem_of_cons; auto).
    exact Hpm.
  - intros k [v (_ & Hk)%restrict_lookup_Some].
    rewrite !elem_of_cons, elem_of_nil in *.
    destruct Hk as [->|[->|[->|Hk]]]; [tauto..|].
    by apply elem_of_nil in Hk.
Qed.

(** X10. When the two drug roles went to one and the same header,
    [check_interaction] finds nothing: every valid pair of names that
    differ after normalisation gets "not_found". *)
Theorem shared_drug_column_finds_nothing (n1 n2 : string) :
  drug1_col self = drug2_col self →
  valid (Some n1) → valid (Some n2) → normalize n1 ≠ normalize n2 →
  ∃ r, check_interaction (Some n1) (Some n2) self = (inr r, self)
       ∧ status r = "not_found" ∧ data r = None.
Proof.
  intros Hsame Hv1 Hv2 Hne.
  eexists. split; [by apply check_interaction_search; auto|]. cbv zeta.
  rewrite bool_decide_eq_true_2; [done|].
  induction (table self) as [|row l IH]; [done|].
  rewrite filter_cons_False; [done|].
  unfold pair_match, drugA, drugB. rewrite Hsame. intros [[? ?]|[? ?]]; congruence.
Qed.

End QueryProps.

Section ListingProps.

Variable read_csv : string → exn + DataFrame.
Variable csv_filepath : string.
Variable self : DrugInteractionChecker.
Hypothesis constructed : new_checker read_csv csv_filepath = inr self.

Lemma listing_loaded : loaded self.
Proof. exact (new_checker_loaded _ _ _ constructed). Qed.

#[local] Hint Resolve listing_loaded : core.

(** X11. [get_all_interactions_for_drug] is blind to the case of its
    argument and to the blanks around it: on a constructed instance a
    string and its normal form get results with the same status and the
    same data. *)
Theorem listing_ignores_case_and_blanks (name : string) :
  ∃ r r',
    get_all_interactions_for_drug (Some name) self = (inr r, self)
    ∧ get_all_interactions_for_drug (Some (normalize name)) self = (inr r', self)
    ∧ status r = status r' ∧ data r = data r'.
Proof.
  destruct (decide (valid (Some name))) as [Hv|Hv].
  - pose proof (proj2 (valid_normalize name) Hv) as Hv'.
    do 2 eexists.
    split; [by apply get_all_search; auto|].
    split; [by apply get_all_search; auto|].
    cbv zeta. rewrite !normalize_normalize. by case_bool_decide.
  - destruct (invalid_inv _ Hv) as (msg & Hmsg & _).
    do 2 eexists.
    split; [by apply get_all_invalid|].
    split; [apply get_all_invalid; by rewrite validate_normalize|]. done.
Qed.

(** X12. The records of a listing: for a valid name, a result that carries
    data has status "found", at least one record and at most one per row;
    the number in its message is the number of records; and every record
    holds the normalised name in one of its two drug fields. *)
Theorem listing_counts_its_records (name : string) :
  valid (Some name) →
  ∃ r, get_all_interactions_for_drug (Some name) self = (inr r, self)
       ∧ ∀ recs, data r = Some recs →
           status r = "found"
           ∧ recs ≠ []
           ∧ (length recs ≤ length (table self))%nat
           ∧ message r = "Found " +:+ pretty (length recs)
                         +:+ " interaction(s) for " +:+ name
           ∧ ∀ rec, rec ∈ recs → mentions self (normalize name) rec.
Proof.
  intros Hv.
  eexists. split; [by apply get_all_search; auto|]. cbv zeta.
  case_bool_decide as Hnil; cbn; [done|].
  intros recs [= <-]. split; [done|].
  split; [by destruct (filter _ _)|].
  split; [rewrite length_fmap; apply length_filter|].
  split; [by rewrite length_fmap|].
  intros rec (row & -> & [Hm _]%list_elem_of_filter)%list_elem_of_fmap.
  destruct listing_loaded as (d & c1 & c2 & c3 & Hd & H1 & H2 & H3 & _).
  unfold mentions, drugA, drugB, record_of in *.
  rewrite H1, H2, H3 in *. cbn in *.
  rewrite !restrict_lookup_in by (rewrite !elem_of_cons; auto).
  exact Hm.
Qed.

(** X13. The pairwise check and the listing agree: when
    [check_interaction] finds records for two names, the listing of each
    of the two names is "found" too and contains those records, in the
    same order. *)
Theorem found_pair_is_listed_for_both (n1 n2 : string) :
  valid (Some n1) → valid (Some n2) → normalize n1 ≠ normalize n2 →
  ∃ r r1 r2,
    check_interaction (Some n1) (Some n2) self = (inr r, self)
    ∧ get_all_interactions_for_drug (Some n1) self = (inr r1, self)
    ∧ get_all_interactions_for_drug (Some n2) self = (inr r2, self)
    ∧ ∀ recs, data r = Some recs →
        ∃ recs1 recs2,
          data r1 = Some recs1 ∧ data r2 = Some recs2
          ∧ status r1 = "found" ∧ status r2 = "found"
          ∧ recs `sublist_of` recs1 ∧ recs `sublist_of` recs2.
Proof.
  intros Hv1 Hv2 Hne.
  do 3 eexists.
  split; [by apply check_interaction_search; auto|].
  split; [by apply get_all_search; auto|].
  split; [by apply get_all_search; auto|]. cbv zeta.
  set (hits := filter (pair_match self (normalize n1) (normalize n2))
                      (table self)).
  set (hits1 := filter (mentions self (normalize n1)) (table self)).
  set (hits2 := filter (mentions self (normalize n2)) (table self)).
  assert (hits `sublist_of` hits1) as Hsub1.
  { apply filter_sublist_mono. unfold pair_match, mentions. tauto. }
  assert (hits `sublist_of` hits2) as Hsub2.
  { apply filter_sublist_mono. unfold pair_match, mentions. tauto. }
  case_bool_decide as Hnil; cbn; [done|].
  intros recs [= <-].
  assert (hits1 ≠ []) as Hnil1.
  { intros Heq. rewrite Heq in Hsub1. by apply sublist_nil_r in Hsub1. }
  assert (hits2 ≠ []) as Hnil2.
  { intros Heq. rewrite Heq in Hsub2. by apply sublist_nil_r in Hsub2. }
  rewrite !bool_decide_eq_false_2 by done. cbn.
  do 2 eexists. repeat (split; [reflexivity|]).
  split; by apply fmap_sublist.
Qed.

End ListingProps.

(** ** The command line *)

Lemma is_quit_strip line :
  is_quit (strip line) = bool_decide (normalize line ∈ ["quit"; "exit"; "q"]).
Proof. unfold is_quit, normalize. by rewrite lower_strip. Qed.

(** What [check_interaction] returns on a loaded instance, as far as the
    display needs it: every record has its two drug fields. *)
Lemma check_interaction_displayable self a b :
  loaded self →
  ∃ r, check_interaction a b self = (inr r, self)
       ∧ ∀ recs, data r = Some recs →
           ∀ rec, rec ∈ recs →
             ∃ c1 c2, drug1_col self = Some c1 ∧ drug2_col self = Some c2
                      ∧ is_Some (rec !! c1) ∧ is_Some (rec !! c2).
Proof.
  intros Hl.
  destruct (decide (valid a)) as [Hva|Hva];
    [destruct (decide (valid b)) as [Hvb|Hvb]|].
  - destruct (valid_inv a Hva) as (n1 & -> & _).
    destruct (valid_inv b Hvb) as (n2 & -> & _).
    destruct (decide (normalize n1 = normalize n2)) as [Heq|Hne].
    + exists same_drug_error. by rewrite check_interaction_same.
    + eexists. split; [by apply check_interaction_search|]. cbv zeta.
      case_bool_decide as Hnil; cbn; [done|].
      intros recs [= <-] rec
        (row & -> & [Hpm _]%list_elem_of_filter)%list_elem_of_fmap.
      destruct Hl as (d & c1 & c2 & c3 & Hd & H1 & H2 & H3 & _).
      exists c1, c2. split; [done|]. split; [done|].
      unfold pair_match, drugA, drugB, record_of in *.
      rewrite H1, H2, H3 in *. cbn in *.
      rewrite !restrict_lookup_in by (rewrite !elem_of_cons; auto).
      destruct Hpm as [[-> ->]|[-> ->]]; by split; eexists.
  - destruct (invalid_inv b Hvb) as (msg & Hmsg & _).
    eexists. split; [by apply check_interaction_invalid2|]. done.
  - destruct (invalid_inv a Hva) as (msg & Hmsg & _).
    eexists. split; [by apply check_interaction_invalid1|]. done.
Qed.

Section MainProps.

Variable read_csv : string → exn + DataFrame.
Variable str_upper : string → string.
Variable str_title : string → string.

Lemma show_interactions_ok checker recs stdout :
  is_Some (level_col checker) →
  (∀ rec, rec ∈ recs →
     ∃ c1 c2, drug1_col checker = Some c1 ∧ drug2_col checker = Some c2
              ∧ is_Some (rec !! c1) ∧ is_Some (rec !! c2)) →
  (show_interactions str_title checker recs stdout).1 = None.
Proof.
  intros [c3 H3] Hrecs. revert stdout.
  induction recs as [|rec recs IH]; intros stdout; [done|].
  destruct (Hrecs rec) as (c1 & c2 & H1 & H2 & [v1 Hv1] & [v2 Hv2]);
    [apply list_elem_of_here|].
  cbn [show_interactions]. unfold show_interaction, cell_title, cell_format.
  rewrite H1, H2, H3, Hv1, Hv2.
  apply IH. intros rec' Hin. apply Hrecs. by apply list_elem_of_further.
Qed.

Lemma show_result_ok checker r stdout :
  is_Some (level_col checker) →
  (∀ recs, data r = Some recs →
     ∀ rec, rec ∈ recs →
       ∃ c1 c2, drug1_col checker = Some c1 ∧ drug2_col checker = Some c2
                ∧ is_Some (rec !! c1) ∧ is_Some (rec !! c2)) →
  (show_result str_upper str_title checker r stdout).1 = None.
Proof.
  intros H3 Hrecs. unfold show_result.
  destruct (data r) as [[|rec recs]|] eqn:Hdata; [done| |done].
  match goal with
  | |- context [show_interactions ?t ?c ?l ?o] =>
      pose proof (show_interactions_ok c l o H3 (Hrecs _ eq_refl)) as Hok;
      destruct (show_interactions t c l o) as [[e|] out]
  end; [done|done].
Qed.

Lemma main_loop_exit checker :
  loaded checker →
  ∀ stdin,
    (∀ stdout,
       let res := main_loop str_upper str_title checker stdin stdout in
       res.1 = Returned ∨ (res.1 = RaisedEOFError ∧ res.2.1.2 = []))
    ∧ (∀ line stdout,
         let res := main_loop str_upper str_title checker (line :: stdin) stdout in
         res.1 = Returned ∨ (res.1 = RaisedEOFError ∧ res.2.1.2 = [])).
Proof.
  intros Hl. induction stdin as [|line2 stdin [IH1 IH2]].
  - split; [intros stdout; right; done|].
    intros line stdout. cbn. destruct (is_quit (strip line)); auto.
  - split; [exact (IH2 line2)|].
    intros line stdout. cbn [main_loop]. cbv zeta.
    destruct (is_quit (strip line)); [by left|].
    destruct (is_quit (strip line2)); [by left|].
    destruct (check_interaction_displayable checker
                (Some (strip line)) (Some (strip line2)) Hl)
      as (r & -> & Hrecs).
    assert (is_Some (level_col checker)) as H3.
    { destruct Hl as (d & c1 & c2 & c3 & _ & _ & _ & H3 & _). by eexists. }
    match goal with
    | |- context [show_result ?u ?t ?c ?r ?o] =>
        pose proof (show_result_ok c r o H3 Hrecs) as Hok;
        destruct (show_result u t c r o) as [[e|] out]
    end; [done|]. apply IH1.
Qed.

(** X14. When the constructor raises, [main] catches the exception, writes
    the error line with its text and the hint line, and returns: it shows
    no banner, prompts for nothing and reads no line. For a missing file
    the error line names "drug_interaction.csv". *)
Theorem main_reports_load_failure (stdin : list string) :
  (∀ e, new_checker read_csv "drug_interaction.csv" = inl e →
        main read_csv str_upper str_title stdin
        = (Returned,
           (stdin,
            [nl +:+ "Error: " +:+ str_exn e +:+ nl;
             "Make sure 'drug_interaction.csv' is in the same folder as this script."
             +:+ nl])))
  ∧ (∀ msg, read_csv "drug_interaction.csv" = inl (FileNotFoundError msg) →
            main read_csv str_upper str_title stdin
            = (Returned,
               (stdin,
                [nl +:+ "Error: CSV file not found: drug_interaction.csv" +:+ nl;
                 "Make sure 'drug_interaction.csv' is in the same folder as this script."
                 +:+ nl]))).
Proof.
  assert (∀ a b c : string, (a +:+ b) +:+ c = a +:+ b +:+ c) as Hassoc.
  { intros a b c. induction a as [|x a IH]; [done|].
    by rewrite !append_cons, IH. }
  split.
  - intros e He. unfold main. rewrite He. unfold print. cbn [app].
    by rewrite !Hassoc.
  - intros msg Hr. unfold main.
    rewrite (new_checker_read_error read_csv _ _ Hr). reflexivity.
Qed.

(** X15. A quit word ends the session at either prompt: a line whose
    normal form is "quit", "exit" or "q" makes the loop write the goodbye
    line and return, with no lookup, no status line, and the following
    lines left unread. *)
Theorem quit_ends_the_session (checker : DrugInteractionChecker)
    (line : string) (rest stdout : list string) :
  normalize line ∈ ["quit"; "exit"; "q"] →
  main_loop str_upper str_title checker (line :: rest) stdout
  = (Returned,
     (checker, rest,
      print goodbye (write "Enter Drug 1: " (print nl stdout))))
  ∧ ∀ first, normalize first ∉ ["quit"; "exit"; "q"] →
      main_loop str_upper str_title checker (first :: line :: rest) stdout
      = (Returned,
         (checker, rest,
          print goodbye
            (write "Enter Drug 2: " (write "Enter Drug 1: " (print nl stdout))))).
Proof.
  intros Hq. split.
  - cbn [main_loop]. cbv zeta. rewrite is_quit_strip.
    by rewrite bool_decide_eq_true_2.
  - intros first Hfirst. cbn [main_loop]. cbv zeta. rewrite !is_quit_strip.
    by rewrite bool_decide_eq_false_2, bool_decide_eq_true_2.
Qed.

(** X16. [main] never lets an exception of the checker or of the display
    escape: whatever the reader gives and whatever is typed, it either
    returns or stops with [EOFError] at a prompt, and then every line of
    the input has been read. *)
Theorem main_stops_only_at_end_of_input (stdin : list string) :
  let res := main read_csv str_upper str_title stdin in
  res.1 = Returned ∨ (res.1 = RaisedEOFError ∧ res.2.1 = []).
Proof.
  unfold main.
  destruct (new_checker read_csv "drug_interaction.csv") as [e|checker] eqn:Hnew;
    [by left|].
  pose proof (new_checker_loaded _ _ _ Hnew) as Hl.
  destruct (main_loop_exit checker Hl stdin) as [H1 _].
  specialize (H1 (banner [])). cbv zeta in H1.
  destruct (main_loop _ _ _ _ _) as [exit [[c rest] out]]. exact H1.
Qed.

End MainProps.

(** ** The login page *)

Lemma append_char_inj (c : ascii) (u v : string) :
  u +:+ String c EmptyString = v +:+ String c EmptyString → u = v.
Proof.
  revert v. induction u as [|a u IH]; intros [|b v];
    rewrite ?append_cons, ?append_empty.
  - done.
  - intros [= _ Hv]. destruct v; by rewrite ?append_cons, ?append_empty in Hv.
  - intros [= _ Hu]. destruct u; by rewrite ?append_cons, ?append_empty in Hu.
  - intros [= -> Huv]. f_equal. by apply IH.
Qed.

Lemma login_cases (req : App.request) :
  App.login req
  = if bool_decide (App.method req = "POST") then
      match App.form req !! "username", App.form req !! "password" with
      | None, _ => inl (App.BadRequestKeyError "username")
      | Some _, None => inl (App.BadRequestKeyError "password")
      | Some u, Some p =>
          if bool_decide (u = "admin" ∧ p = "1234")
          then inr (App.Body "Welcome, admin!")
          else inr (App.Body "Invalid credentials, please try again.")
      end
    else inr (App.Template "login.html").
Proof.
  unfold App.login, App.form_get, App.USERNAME, App.PASSWORD.
  case_bool_decide; [|done].
  destruct (App.form req !! "username") as [u|]; [|done].
  destruct (App.form req !! "password") as [p|]; [|done].
  repeat case_bool_decide; cbn [andb]; subst; try done; tauto.
Qed.

(** X17. [login] greets on exactly one request: a POST whose form holds
    the user name "admin" and the password "1234", compared as they are,
    and the greeting is then "Welcome, admin!". A POST that lacks one of
    the two fields is a bad request, the user name being looked up first;
    any other method gets the login template whatever the form holds. *)
Theorem login_accepts_only_the_credentials (req : App.request) :
  (App.login req = inr (App.Body "Welcome, admin!")
   ↔ App.method req = "POST"
     ∧ App.form req !! "username" = Some "admin"
     ∧ App.form req !! "password" = Some "1234")
  ∧ (∀ u, App.login req = inr (App.Body ("Welcome, " +:+ u +:+ "!")) →
          u = "admin")
  ∧ ((∃ key, App.login req = inl (App.BadRequestKeyError key))
     ↔ App.method req = "POST"
       ∧ (App.form req !! "username" = None
          ∨ App.form req !! "password" = None))
  ∧ (App.method req = "POST" → App.form req !! "username" = None →
     App.login req = inl (App.BadRequestKeyError "username"))
  ∧ (App.method req ≠ "POST" → App.login req = inr (App.Template "login.html")).
Proof.
  rewrite login_cases.
  destruct (decide (App.method req = "POST")) as [Hm|Hm].
  - rewrite bool_decide_eq_true_2 by done.
    destruct (App.form req !! "username") as [u|] eqn:Hu;
      [destruct (App.form req !! "password") as [p|] eqn:Hp|].
    + destruct (decide (u = "admin" ∧ p = "1234")) as [[-> ->]|Hne].
      * rewrite bool_decide_eq_true_2 by done.
        split; [done|]. split.
        { intros u' [= Hw]. rewrite append_empty in Hw.
          symmetry. by apply (append_char_inj "!"). }
        split; [|done]. split; [by intros [? ?]|]. intros (_ & [?|?]); done.
      * rewrite bool_decide_eq_false_2 by done.
        split; [split; [done|intros (_ & [= ->] & [= ->]); tauto]|].
        split; [intros u' [=]|].
        split; [|done]. split; [by intros [? ?]|]. intros (_ & [?|?]); done.
    + split; [split; [done|by intros (_ & _ & ?)]|].
      split; [done|]. split; [|done]. split; [auto|by eexists].
    + split; [split; [done|by intros (_ & ? & _)]|].
      split; [done|]. split; [|done]. split; [auto|by eexists].
  - rewrite bool_decide_eq_false_2 by done.
    split; [split; [done|by intros (? & _)]|].
    split; [done|]. split; [|done]. split; [by intros [? ?]|by intros (? & _)].
Qed.

(** ** The further properties at work on the example tables *)

Lemma one_header_constructed :
  new_checker (λ _, inr Examples.one_header) "drug_interaction.csv"
  = inr one_header_checker.
Proof. vm_compute. reflexivity. Defined.

Lemma example_names_differ : normalize "warfarin" ≠ normalize "ASPIRIN ".
Proof. vm_compute. discriminate. Defined.

(** The example table has five columns, so it loads. *)
Lemma constructor_column_bounds_witness :
  Examples.read_interactions "drug_interaction.csv" = inr Examples.interactions
  ∧ ∃ self, new_checker Examples.read_interactions "drug_interaction.csv"
            = inr self.
Proof.
  split; [reflexivity|].
  destruct (constructor_column_bounds
              Examples.read_interactions "drug_interaction.csv"
              Examples.interactions eq_refl) as (_ & Hfive & _).
  apply Hfive; [vm_compute; lia|].
  intros c [Hc|Hc]; vm_compute in Hc; injection Hc as <-; reflexivity.
Defined.

Lemma load_keeps_frame_witness :
  new_checker Examples.read_interactions "drug_interaction.csv"
    = inr Examples.checker
  ∧ Examples.read_interactions "drug_interaction.csv" = inr Examples.interactions
  ∧ filepath Examples.checker = "drug_interaction.csv"
  ∧ ∃ d, df Examples.checker = Some d
         ∧ columns d = columns Examples.interactions
         ∧ length (rows d) = length (rows Examples.interactions).
Proof.
  split; [exact example_constructed|]. split; [reflexivity|].
  destruct (load_keeps_frame
              Examples.read_interactions "drug_interaction.csv"
              Examples.checker Examples.interactions
              example_constructed eq_refl)
    as (Hpath & d & Hd & Hcols & Hlen & _).
  split; [exact Hpath|]. exists d. by repeat split.
Defined.

Lemma reload_same_instance_witness :
  new_checker Examples.read_interactions "drug_interaction.csv"
    = inr Examples.checker
  ∧ ∃ d, df Examples.checker = Some d
         ∧ new_checker (λ _, inr d) "drug_interaction.csv" = inr Examples.checker.
Proof.
  split; [exact example_constructed|].
  eexists. split; [reflexivity|].
  exact (reload_same_instance
           Examples.read_interactions "drug_interaction.csv"
           Examples.checker _ example_constructed eq_refl).
Defined.

Lemma check_interaction_ignores_case_and_blanks_witness :
  new_checker Examples.read_interactions "drug_interaction.csv"
    = inr Examples.checker
  ∧ ∃ r r',
      check_interaction (Some " WARFARIN") (Some "Aspirin ") Examples.checker
        = (inr r, Examples.checker)
      ∧ check_interaction (Some (normalize " WARFARIN"))
                          (Some (normalize "Aspirin ")) Examples.checker
        = (inr r', Examples.checker)
      ∧ status r = status r' ∧ data r = data r'.
Proof.
  split; [exact example_constructed|].
  exact (check_interaction_ignores_case_and_blanks
           Examples.read_interactions "drug_interaction.csv"
           Examples.checker example_constructed " WARFARIN" "Aspirin ").
Defined.

Lemma check_interaction_matches_source_witness :
  new_checker Examples.read_interactions "drug_interaction.csv"
    = inr Examples.checker
  ∧ Examples.read_interactions "drug_interaction.csv" = inr Examples.interactions
  ∧ valid (Some "warfarin") ∧ valid (Some "ASPIRIN ")
  ∧ normalize "warfarin" ≠ normalize "ASPIRIN "
  ∧ ∃ r, check_interaction (Some "warfarin") (Some "ASPIRIN ") Examples.checker
           = (inr r, Examples.checker)
         ∧ (status r = "found"
            ↔ ∃ row0, row0 ∈ rows Examples.interactions
                ∧ ((normalize <$> drugA Examples.checker row0
                      = Some (normalize "warfarin")
                    ∧ normalize <$> drugB Examples.checker row0
                      = Some (normalize "ASPIRIN "))
                   ∨ (normalize <$> drugA Examples.checker row0
                        = Some (normalize "ASPIRIN ")
                      ∧ normalize <$> drugB Examples.checker row0
                        = Some (normalize "warfarin")))).
Proof.
  split; [exact example_constructed|]. split; [reflexivity|].
  split; [reflexivity|]. split; [reflexivity|].
  split; [exact example_names_differ|].
  exact (check_interaction_matches_source
           Examples.read_interactions "drug_interaction.csv"
           Examples.checker example_constructed Examples.interactions
           "warfarin" "ASPIRIN " eq_refl eq_refl eq_refl example_names_differ).
Defined.

Lemma found_records_hold_the_pair_witness :
  new_checker Examples.read_interactions "drug_interaction.csv"
    = inr Examples.checker
  ∧ valid (Some "warfarin") ∧ valid (Some "ASPIRIN ")
  ∧ normalize "warfarin" ≠ normalize "ASPIRIN "
  ∧ ∃ r, check_interaction (Some "warfarin") (Some "ASPIRIN ") Examples.checker
           = (inr r, Examples.checker)
         ∧ ∀ recs, data r = Some recs →
             recs ≠ [] ∧ (length recs ≤ length (table Examples.checker))%nat.
Proof.
  split; [exact example_constructed|].
  split; [reflexivity|]. split; [reflexivity|].
  split; [exact example_names_differ|].
  destruct (found_records_hold_the_pair
              Examples.read_interactions "drug_interaction.csv"
              Examples.checker example_constructed
              "warfarin" "ASPIRIN " eq_refl eq_refl example_names_differ)
    as (r & Hrun & Hrecs).
  exists r. split; [exact Hrun|].
  intros recs Hdata. destruct (Hrecs recs Hdata) as (Hne & Hlen & _).
  by split.
Defined.

Lemma shared_drug_column_finds_nothing_witness :
  new_checker (λ _, inr Examples.one_header) "drug_interaction.csv"
    = inr one_header_checker
  ∧ drug1_col one_header_checker = drug2_col one_header_checker
  ∧ valid (Some "aspirin") ∧ valid (Some "warfarin")
  ∧ normalize "aspirin" ≠ normalize "warfarin"
  ∧ ∃ r, check_interaction (Some "aspirin") (Some "warfarin") one_header_checker
           = (inr r, one_header_checker)
         ∧ status r = "not_found" ∧ data r = None.
Proof.
  assert (normalize "aspirin" ≠ normalize "warfarin") as Hne
    by (vm_compute; discriminate).
  split; [exact one_header_constructed|]. split; [reflexivity|].
  split; [reflexivity|]. split; [reflexivity|]. split; [exact Hne|].
  exact (shared_drug_column_finds_nothing
           (λ _, inr Examples.one_header) "drug_interaction.csv"
           one_header_checker one_header_constructed
           "aspirin" "warfarin" eq_refl eq_refl eq_refl Hne).
Defined.

Lemma listing_ignores_case_and_blanks_witness :
  new_checker Examples.read_interactions "drug_interaction.csv"
    = inr Examples.checker
  ∧ ∃ r r',
      get_all_interactions_for_drug (Some " ASPIRIN ") Examples.checker
        = (inr r, Examples.checker)
      ∧ get_all_interactions_for_drug (Some (normalize " ASPIRIN "))
                                      Examples.checker
        = (inr r', Examples.checker)
      ∧ status r = status r' ∧ data r = data r'.
Proof.
  split; [exact example_constructed|].
  exact (listing_ignores_case_and_blanks
           Examples.read_interactions "drug_interaction.csv"
           Examples.checker example_constructed " ASPIRIN ").
Defined.

Lemma listing_counts_its_records_witness :
  new_checker Examples.read_interactions "drug_interaction.csv"
    = inr Examples.checker
  ∧ valid (Some "Aspirin")
  ∧ ∃ r, get_all_interactions_for_drug (Some "Aspirin") Examples.checker
           = (inr r, Examples.checker)
         ∧ ∀ recs, data r = Some recs →
             message r = "Found " +:+ pretty (length recs)
                         +:+ " interaction(s) for " +:+ "Aspirin".
Proof.
  split; [exact example_constructed|]. split; [reflexivity|].
  destruct (listing_counts_its_records
              Examples.read_interactions "drug_interaction.csv"
              Examples.checker example_constructed "Aspirin" eq_refl)
    as (r & Hrun & Hrecs).
  exists r. split; [exact Hrun|].
  intros recs Hdata. by destruct (Hrecs recs Hdata) as (_ & _ & _ & Hmsg & _).
Defined.

Lemma found_pair_is_listed_for_both_witness :
  new_checker Examples.read_interactions "drug_interaction.csv"
    = inr Examples.checker
  ∧ valid (Some "warfarin") ∧ valid (Some "ASPIRIN ")
  ∧ normalize "warfarin" ≠ normalize "ASPIRIN "
  ∧ ∃ r r1 r2,
      check_interaction (Some "warfarin") (Some "ASPIRIN ") Examples.checker
        = (inr r, Examples.checker)
      ∧ get_all_interactions_for_drug (Some "warfarin") Examples.checker
        = (inr r1, Examples.checker)
      ∧ get_all_interactions_for_drug (Some "ASPIRIN ") Examples.checker
        = (inr r2, Examples.checker)
      ∧ ∀ recs, data r = Some recs →
          ∃ recs1 recs2,
            data r1 = Some recs1 ∧ data r2 = Some recs2
            ∧ status r1 = "found" ∧ status r2 = "found"
            ∧ recs `sublist_of` recs1 ∧ recs `sublist_of` recs2.
Proof.
  split; [exact example_constructed|].
  split; [reflexivity|]. split; [reflexivity|].
  split; [exact example_names_differ|].
  exact (found_pair_is_listed_for_both
           Examples.read_interactions "drug_interaction.csv"
           Examples.checker example_constructed
           "warfarin" "ASPIRIN " eq_refl eq_refl example_names_differ).
Defined.

Lemma quit_ends_the_session_witness :
  normalize " Exit " ∈ ["quit"; "exit"; "q"]
  ∧ main_loop ascii_upper ascii_upper Examples.checker
              [" Exit "; "aspirin"] []
    = (Returned,
       (Examples.checker, ["aspirin"],
        print goodbye (write "Enter Drug 1: " (print nl [])))).
Proof.
  assert (normalize " Exit " ∈ ["quit"; "exit"; "q"]) as Hq
    by (vm_compute; apply list_elem_of_further, list_elem_of_here).
  split; [exact Hq|].
  exact (proj1 (quit_ends_the_session ascii_upper ascii_upper Examples.checker
                  " Exit " ["aspirin"] [] Hq)).
Defined.

(** The constructor on a drug column of numbers, on a drug column without
    a cell, and on a frame without rows. *)
Example numeric_drug_column_refused :
  new_checker (λ _, inr numeric_drug) "drug_interaction.csv"
  = inl (Exception
           "Error loading data: Can only use .str accessor with string values!").
Proof. vm_compute. reflexivity. Qed.

Example missing_drug_column_refused :
  new_checker (λ _, inr missing_drug) "drug_interaction.csv"
  = inl (Exception
           "Error loading data: Can only use .str accessor with string values!").
Proof. vm_compute. reflexivity. Qed.

Example frame_without_rows_loads :
  ∃ self,
    new_checker (λ _, inr {| columns := columns Examples.interactions;
                             rows := []; non_object := [] |})
                "drug_interaction.csv" = inr self
    ∧ table self = [].
Proof. eexists. split; [vm_compute; reflexivity|reflexivity]. Qed.
